(** * Changed Filter: the status parser, the classifier and the two-level
      menu of [changed_filter.py], embedded in Rocq.

    Python strings are sequences of Unicode code points; they are modelled
    as lists of code points ([N]).  The command object's fields are a
    record, its methods are computations in a small state/trace/exception
    monad, and the host window (quick panels, file opening) is a trace of
    effects. *)

From Stdlib Require Import ZArith NArith String Ascii DecimalString.
From stdpp Require Import base list gmap sorting.

Local Open Scope Z_scope.
#[local] Set Warnings "-clear-no-such-hyp".

(** ** Python strings *)

Abbreviation char := N.
Definition str := list char.

(** A literal of the source, as a list of code points. *)
Definition py (s : string) : str := map N_of_ascii (list_ascii_of_string s).

Module Char.
Definition space : char := 32%N.
Definition newline : char := 10%N.
Definition question : char := 63%N.
Definition dquote : char := 34%N.
Definition slash : char := 47%N.
End Char.

(** [str.isspace] on one code point, the test [str.strip()] uses: the
    ASCII table of CPython and the Unicode White_Space / bidirectional
    WS, B, S code points beyond it. *)
Definition isspace (c : char) : bool :=
  ((9 <=? c) && (c <=? 13) || (28 <=? c) && (c <=? 32)
   || (c =? 133) || (c =? 160) || (c =? 5760)
   || (8192 <=? c) && (c <=? 8202)
   || (c =? 8232) || (c =? 8233) || (c =? 8239) || (c =? 8287)
   || (c =? 12288))%N.

Fixpoint lstrip (s : str) : str :=
  match s with
  | c :: s' => if isspace c then lstrip s' else s
  | [] => []
  end.

Definition rstrip (s : str) : str := rev (lstrip (rev s)).

(** [s.strip()] *)
Definition strip (s : str) : str := rstrip (lstrip s).

(** [s.split('\n')]: never empty, [''.split('\n') = ['']]. *)
Fixpoint split_lines (s : str) : list str :=
  match s with
  | [] => [[]]
  | c :: s' =>
      if (c =? Char.newline)%N then [] :: split_lines s'
      else match split_lines s' with
           | l :: ls => (c :: l) :: ls
           | [] => [[c]]
           end
  end.

(** [s.startswith('"')] and [s.endswith('"')] *)
Definition startswith_char (c : char) (s : str) : bool :=
  match s with
  | x :: _ => (x =? c)%N
  | [] => false
  end.

Definition endswith_char (c : char) (s : str) : bool :=
  startswith_char c (rev s).

(** [s[1:-1]] *)
Definition slice_1_m1 (s : str) : str := removelast (tail s).

(** Equality and order of strings: [==] and [<=] of Python compare code
    point by code point, a proper prefix being smaller. *)
Fixpoint str_eqb (a b : str) : bool :=
  match a, b with
  | [], [] => true
  | x :: a', y :: b' => (x =? y)%N && str_eqb a' b'
  | _, _ => false
  end.

Fixpoint str_leb (a b : str) : bool :=
  match a, b with
  | [], _ => true
  | _ :: _, [] => false
  | x :: a', y :: b' =>
      if (x <? y)%N then true
      else if (x =? y)%N then str_leb a' b'
      else false
  end.

Definition str_le (a b : str) : Prop := str_leb a b = true.

(** [list.sort(key=...)]: Python's sort is stable, and the result of a
    stable sort is determined by the keys, so a stable insertion sort gives
    the same list. *)
Fixpoint insort {A : Type} (key : A → str) (x : A) (l : list A) : list A :=
  match l with
  | [] => [x]
  | y :: l' => if str_leb (key x) (key y) then x :: l else y :: insort key x l'
  end.

Definition list_sort {A : Type} (key : A → str) (l : list A) : list A :=
  foldr (insort key) [] l.

(** [l[i]] with Python's negative indices; [None] stands for IndexError. *)
Definition py_index {A : Type} (l : list A) (i : Z) : option A :=
  let n := Z.of_nat (length l) in
  if (0 <=? i) && (i <? n) then l !! Z.to_nat i
  else if (- n <=? i) && (i <? 0) then l !! Z.to_nat (n + i)
  else None.

(** [posixpath.join(a, b)] with one component. *)
Definition os_path_join (a b : str) : str :=
  if startswith_char Char.slash b then b
  else if bool_decide (a = []) || endswith_char Char.slash a then a ++ b
  else a ++ Char.slash :: b.

(** ** Parsing one line of [git status --porcelain] *)

(** An entry of [self.all_files]: [(file_path, status)]. *)
Definition record : Type := str * str.

Definition path_of (r : record) : str := r.1.
Definition status_of (r : record) : str := r.2.

(** Lines 91-96: the two-character status and the unquoted path. *)
Definition unquote (file_path : str) : str :=
  if startswith_char Char.dquote file_path && endswith_char Char.dquote file_path
  then slice_1_m1 file_path
  else file_path.

Definition parse_line (line : str) : option record :=
  if (length line <? 3)%nat then None
  else
    let status := take 2 line in
    let file_path := unquote (strip (drop 3 line)) in
    Some (file_path, status).

(** [status[0]] and [status[1]]; a status always has two characters. *)
Definition first_char (status : str) : char := nth 0 status 0%N.
Definition second_char (status : str) : char := nth 1 status 0%N.

(** Line 105: [first_char not in (' ', '?')]. *)
Definition is_staged (status : str) : bool :=
  negb ((first_char status =? Char.space)%N || (first_char status =? Char.question)%N).

(** Line 109: [second_char != ' ' or status == '??']. *)
Definition is_unstaged (status : str) : bool :=
  negb (second_char status =? Char.space)%N
  || str_eqb status [Char.question; Char.question].

(** ** The command object, the host window and the git subprocess *)

(** The values [filter_types] holds and [self.selected_filter] takes. *)
Inductive filter_type := filter_all | filter_staged | filter_unstaged.

(** The fields [run] initialises on the command object. *)
Record command := Command {
  git_root : option str;
  all_files : list record;
  staged_files : list str;
  unstaged_files : list str;
  current_level : str;
  selected_filter : option filter_type
}.

(** The two bound methods the command hands to the window as [on_select]. *)
Inductive callback := cb_on_filter_selected | cb_on_file_selected.

(** [show_quick_panel] receives rows of strings (filter menu, notices) or
    plain strings (file list). *)
Inductive panel_items :=
| Rows (rows : list (list str))
| Names (names : list str).

(** What the command asks of [self.window]. *)
Inductive effect :=
| show_quick_panel (items : panel_items) (on_select : option callback)
    (flags : N) (placeholder : str)
| open_file (file_name : str).

(** How [subprocess.run(..., check=True)] ends: normally with the captured
    stdout, or with one of the two exceptions the source catches
    ([CalledProcessError] carries [str(e)]).  Any other exception of
    [subprocess.run] (UnicodeDecodeError, PermissionError, ...) is caught
    nowhere and leaves [run] before a panel is shown; such invocations have
    no session and are not described here. *)
Inductive completed :=
| Completed (stdout : str)
| CalledProcessError (e : str)
| FileNotFoundError.

(** The outside world of one invocation: the result of
    [git rev-parse --show-toplevel] in the window's working directory, and
    of [git status --porcelain] run with [cwd=self.git_root]. *)
Record environment := Environment {
  rev_parse : completed;
  status_porcelain : option str -> completed
}.

(** The exceptions the callbacks can let escape: an index out of range,
    and [os.path.join] applied to [None]. *)
Inductive exn := IndexError | TypeError.

(** The command object together with the effects performed so far, oldest
    first. *)
Record machine := Machine {
  self : command;
  ui : list effect
}.

(** ** A state, trace and exception monad for the methods *)

Definition M (A : Type) : Type := machine -> (exn + A) * machine.

Definition ret {A} (a : A) : M A := fun m => (inr a, m).

Definition bind {A B} (c : M A) (k : A -> M B) : M B :=
  fun m =>
    match c m with
    | (inr a, m') => k a m'
    | (inl e, m') => (inl e, m')
    end.

Definition raise {A} (e : exn) : M A := fun m => (inl e, m).

Definition get : M command := fun m => (inr (self m), m).

Definition modify (f : command -> command) : M unit :=
  fun m => (inr tt, Machine (f (self m)) (ui m)).

Definition emit (e : effect) : M unit :=
  fun m => (inr tt, Machine (self m) (ui m ++ [e])).

Declare Scope py_scope.
Delimit Scope py_scope with py.
Notation "x <- c ;; k" := (bind c (fun x => k))
  (at level 100, c at next level, right associativity) : py_scope.
Notation "c ;; k" := (bind c (fun _ => k))
  (at level 100, right associativity) : py_scope.
Local Open Scope py_scope.

Fixpoint for_each {A} (f : A -> M unit) (l : list A) : M unit :=
  match l with
  | [] => ret tt
  | x :: l' => f x ;; for_each f l'
  end.

Definition when (b : bool) (c : M unit) : M unit := if b then c else ret tt.

(** Field assignments. *)
Definition set_git_root (v : option str) (c : command) : command :=
  Command v (all_files c) (staged_files c) (unstaged_files c)
    (current_level c) (selected_filter c).
Definition set_all_files (v : list record) (c : command) : command :=
  Command (git_root c) v (staged_files c) (unstaged_files c)
    (current_level c) (selected_filter c).
Definition set_staged_files (v : list str) (c : command) : command :=
  Command (git_root c) (all_files c) v (unstaged_files c)
    (current_level c) (selected_filter c).
Definition set_unstaged_files (v : list str) (c : command) : command :=
  Command (git_root c) (all_files c) (staged_files c) v
    (current_level c) (selected_filter c).
Definition set_selected_filter (v : option filter_type) (c : command) : command :=
  Command (git_root c) (all_files c) (staged_files c) (unstaged_files c)
    (current_level c) v.

(** Lines 19-24. *)
Definition initial_command : command :=
  Command None [] [] [] (py "filter") None.

(** ** The methods of [ChangedFilterCommand] *)

Definition MONOSPACE_FONT : N := 1%N.

(** Lines 208-215. *)
Definition _show_error (message : str) : M unit :=
  emit (show_quick_panel (Rows [[message]]) None MONOSPACE_FONT
          (py "Changed Filter |")).

(** Lines 38-54. *)
Definition _check_git_repo (env : environment) : M bool :=
  match rev_parse env with
  | Completed stdout =>
      modify (set_git_root (Some (strip stdout))) ;;
      ret true
  | CalledProcessError _ => ret false
  | FileNotFoundError => ret false
  end.

(** Lines 88-110: the body of the loop over the lines. *)
Definition classify_line (line : str) : M unit :=
  match parse_line line with
  | None => ret tt
  | Some (file_path, status) =>
      modify (fun c => set_all_files (all_files c ++ [(file_path, status)]) c) ;;
      when (is_staged status)
        (modify (fun c => set_staged_files (staged_files c ++ [file_path]) c)) ;;
      when (is_unstaged status)
        (modify (fun c => set_unstaged_files (unstaged_files c ++ [file_path]) c))
  end.

(** Lines 71-124. *)
Definition _get_changed_files (env : environment) : M bool :=
  c <- get ;;
  match status_porcelain env (git_root c) with
  | Completed stdout =>
      let output := strip stdout in
      if bool_decide (output = []) then ret false
      else
        for_each classify_line (split_lines output) ;;
        modify (fun c => set_all_files (list_sort path_of (all_files c)) c) ;;
        modify (fun c => set_staged_files (list_sort id (staged_files c)) c) ;;
        modify (fun c => set_unstaged_files (list_sort id (unstaged_files c)) c) ;;
        c <- get ;;
        ret (0 <? length (all_files c))%nat
  | CalledProcessError e =>
      _show_error (py "Error running git: " ++ e) ;;
      ret false
  | FileNotFoundError =>
      _show_error (py "Git not found in PATH") ;;
      ret false
  end.

(** [str(n)] for a length. *)
Definition str_of_nat (n : nat) : str :=
  py (NilEmpty.string_of_uint (Nat.to_uint n)).

(** Lines 126-143. *)
Definition filter_menu (c : command) : list (list str) :=
  let all_count := size (list_to_set (map path_of (all_files c)) : gset str) in
  let staged_count := length (staged_files c) in
  let unstaged_count := length (unstaged_files c) in
  [ [py "All Changes (" ++ str_of_nat all_count ++ py " files)";
     py "Show all staged and unstaged files"];
    [py "Staged Only (" ++ str_of_nat staged_count ++ py " files)";
     py "Show only files in the staging area"];
    [py "Unstaged Only (" ++ str_of_nat unstaged_count ++ py " files)";
     py "Show only unstaged changes and untracked files"] ].

Definition _show_filter_selection : M unit :=
  c <- get ;;
  emit (show_quick_panel (Rows (filter_menu c)) (Some cb_on_filter_selected)
          0%N (py "Changed Filter |")).

(** Lines 163-164 and 195-196:
    [seen = set(); files = [f for f in files if not (f in seen or seen.add(f))]]. *)
Fixpoint unseen (seen : gset str) (files : list str) : list str :=
  match files with
  | [] => []
  | f :: files' =>
      if bool_decide (f ∈ seen) then unseen seen files'
      else f :: unseen ({[f]} ∪ seen) files'
  end.

(** [s.lower()], on the ASCII letters the three filter names consist of. *)
Definition lower (s : str) : str :=
  map (fun c => if ((65 <=? c) && (c <=? 90))%N then (c + 32)%N else c) s.

(** Lines 160-171: the files and the name of the selected filter. *)
Definition files_to_show (c : command) : list str * str :=
  match selected_filter c with
  | Some filter_all =>
      let files := map path_of (all_files c) in
      (unseen ∅ files, py "All Changes")
  | Some filter_staged => (staged_files c, py "Staged Only")
  | _ => (unstaged_files c, py "Unstaged Only")
  end.

(** Lines 157-182. *)
Definition _show_file_list : M unit :=
  c <- get ;;
  let '(files, filter_name) := files_to_show c in
  if bool_decide (files = []) then
    _show_error (py "No " ++ lower filter_name)
  else
    emit (show_quick_panel (Names files) (Some cb_on_file_selected) 0%N
            (py "Changed Filter | " ++ filter_name ++ py " |")).

(** Lines 145-155. *)
Definition filter_types : list filter_type :=
  [filter_all; filter_staged; filter_unstaged].

Definition _on_filter_selected (index : Z) : M unit :=
  if (index =? -1) then ret tt
  else
    match py_index filter_types index with
    | None => raise IndexError
    | Some f =>
        modify (set_selected_filter (Some f)) ;;
        _show_file_list
    end.

(** Lines 192-200: the files looked up again when one is chosen. *)
Definition files_to_open (c : command) : list str :=
  match selected_filter c with
  | Some filter_all =>
      let files := map path_of (all_files c) in
      unseen ∅ files
  | Some filter_staged => staged_files c
  | _ => unstaged_files c
  end.

(** Lines 184-206. *)
Definition _on_file_selected (index : Z) : M unit :=
  if (index =? -1) then _show_filter_selection
  else
    c <- get ;;
    match py_index (files_to_open c) index with
    | None => raise IndexError
    | Some file_path =>
        match git_root c with
        | None => raise TypeError
        | Some root =>
            let full_path := os_path_join root file_path in
            emit (open_file full_path)
        end
    end.

(** Lines 16-36. *)
Definition run (env : environment) : M unit :=
  modify (fun _ => initial_command) ;;
  ok <- _check_git_repo env ;;
  if negb ok then _show_error (py "Not in a git repository")
  else
    ok <- _get_changed_files env ;;
    if negb ok then _show_error (py "No changed files")
    else _show_filter_selection.

(** ** The session: the host window driving the callbacks *)

(** The window keeps at most one quick panel open.  A panel is closed when
    it calls its [on_select] (with the chosen index, or with -1 when the
    user dismisses it); a panel shown during that call becomes the open one.
    [pending] is the [on_select] of the open panel, [fault] an exception
    that escaped the last call. *)
Record session := Session {
  mach : machine;
  pending : option callback;
  fault : option exn
}.

(** The [on_select] of the panel left open by the effects of one call. *)
Definition panel_after (es : list effect) : option callback :=
  foldl (fun p e =>
           match e with
           | show_quick_panel _ cb _ _ => cb
           | open_file _ => p
           end) None es.

Definition settle (before : nat) (r : (exn + unit) * machine) : session :=
  Session r.2 (panel_after (drop before (ui r.2)))
    (match r.1 with inl e => Some e | inr _ => None end).

Definition dispatch (cb : callback) (index : Z) : M unit :=
  match cb with
  | cb_on_filter_selected => _on_filter_selected index
  | cb_on_file_selected => _on_file_selected index
  end.

(** The user invokes the command. *)
Definition start (env : environment) : session :=
  settle 0 (run env (Machine initial_command [])).

(** The open panel, if any, reports [index]. *)
Definition deliver (s : session) (index : Z) : session :=
  match pending s with
  | None => s
  | Some cb => settle (length (ui (mach s))) (dispatch cb index (mach s))
  end.

(** A whole session: the command is invoked, then the user answers the
    panels one after the other. *)
Definition play (env : environment) (answers : list Z) : session :=
  foldl deliver (start env) answers.

(** The three states of the selection protocol. *)
Inductive protocol_state := FilterSelect | FileSelect | Done.

Definition state_of (s : session) : protocol_state :=
  match pending s with
  | Some cb_on_filter_selected => FilterSelect
  | Some cb_on_file_selected => FileSelect
  | None => Done
  end.

(** A notice: the one-row panel of [_show_error]. *)
Definition notice (message : str) : effect :=
  show_quick_panel (Rows [[message]]) None MONOSPACE_FONT (py "Changed Filter |").

Definition is_menu (e : effect) : bool :=
  match e with
  | show_quick_panel _ (Some _) _ _ => true
  | _ => false
  end.

(** ** Reference definitions the properties are stated with *)

(** Keep the first occurrence of every element, in order. *)
Fixpoint keep_first (l : list str) : list str :=
  match l with
  | [] => []
  | x :: l' => x :: filter (λ y, y ≠ x) (keep_first l')
  end.

(** The records the loop of [_get_changed_files] builds from its lines. *)
Definition records_of (lines : list str) : list record :=
  omap parse_line lines.

Definition staged_paths (rs : list record) : list str :=
  map path_of (filter (λ r, is_staged (status_of r)) rs).

Definition unstaged_paths (rs : list record) : list str :=
  map path_of (filter (λ r, is_unstaged (status_of r)) rs).

(** The lines and the records of one invocation. *)
Definition lines_of (env : environment) : list str :=
  match rev_parse env with
  | Completed out =>
      match status_porcelain env (Some (strip out)) with
      | Completed stdout => split_lines (strip stdout)
      | _ => []
      end
  | _ => []
  end.

(** The list a file panel shows for filter [k]. *)
Definition presented (k : filter_type) (c : command) : list str :=
  (files_to_show (set_selected_filter (Some k) c)).1.

(** The names of the panel opened last. *)
Definition shown_names (s : session) : list str :=
  match last (ui (mach s)) with
  | Some (show_quick_panel (Names files) _ _ _) => files
  | _ => []
  end.

(** The order a sort by [key] establishes. *)
Definition key_le {A : Type} (key : A → str) (x y : A) : Prop :=
  str_le (key x) (key y).

(** What one line adds to the three lists. *)
Definition absorb (line : str) (c : command) : command :=
  match parse_line line with
  | None => c
  | Some r =>
      Command (git_root c)
        (all_files c ++ [r])
        (staged_files c ++ (if is_staged (status_of r) then [path_of r] else []))
        (unstaged_files c ++ (if is_unstaged (status_of r) then [path_of r] else []))
        (current_level c) (selected_filter c)
  end.

Definition root_of (env : environment) : option str :=
  match rev_parse env with
  | Completed out => Some (strip out)
  | _ => None
  end.

(** The command object [run] leaves behind. *)
Definition classified (env : environment) : command :=
  let rs := records_of (lines_of env) in
  Command (root_of env) (list_sort path_of rs)
    (list_sort id (staged_paths rs)) (list_sort id (unstaged_paths rs))
    (py "filter") None.

Definition menu_panel (c : command) : effect :=
  show_quick_panel (Rows (filter_menu c)) (Some cb_on_filter_selected) 0%N
    (py "Changed Filter |").

(** The panels [run] shows. *)
Definition start_trace (env : environment) : list effect :=
  match rev_parse env with
  | Completed out =>
      match status_porcelain env (Some (strip out)) with
      | Completed stdout =>
          if bool_decide (records_of (lines_of env) = [])
          then [notice (py "No changed files")]
          else [menu_panel (classified env)]
      | CalledProcessError e =>
          [notice (py "Error running git: " ++ e); notice (py "No changed files")]
      | FileNotFoundError =>
          [notice (py "Git not found in PATH"); notice (py "No changed files")]
      end
  | _ => [notice (py "Not in a git repository")]
  end.

(** The three lists after the loop and the three sorts. *)
Definition sorted_lists (rs : list record) (c : command) : command :=
  Command (git_root c)
    (list_sort path_of (all_files c ++ rs))
    (list_sort id (staged_files c ++ staged_paths rs))
    (list_sort id (unstaged_files c ++ unstaged_paths rs))
    (current_level c) (selected_filter c).

(** The panel [_show_file_list] opens. *)
Definition file_panel (c : command) : effect :=
  if bool_decide ((files_to_show c).1 = []) then
    notice (py "No " ++ lower (files_to_show c).2)
  else
    show_quick_panel (Names (files_to_show c).1) (Some cb_on_file_selected) 0%N
      (py "Changed Filter | " ++ (files_to_show c).2 ++ py " |").

(** The panel [deliver] leaves open was computed by [_show_file_list] from
    the command object it leaves behind. *)
Definition consistent (s : session) : Prop :=
  pending s = Some cb_on_file_selected →
  ∃ k placeholder,
    selected_filter (self (mach s)) = Some k
    ∧ last (ui (mach s)) =
      Some (show_quick_panel (Names (files_to_show (self (mach s))).1)
              (Some cb_on_file_selected) 0%N placeholder).

Definition same_lists (c c' : command) : Prop :=
  git_root c' = git_root c ∧ all_files c' = all_files c
  ∧ staged_files c' = staged_files c ∧ unstaged_files c' = unstaged_files c.

(** ** The working directory of the repository check *)

(** [view.file_name()] is [None] for a buffer that has no file. *)
Record view := View {
  file_name : option str
}.

(** What [_get_working_directory] reads: [self.window.active_view()]
    ([None] when the window has no view), [self.window.folders()] and
    [os.path.expanduser('~')]. *)
Record window := Window {
  active_view : option view;
  folders : list str;
  home : str
}.

(** [p[:p.rfind(sep) + 1]]: up to and including the last [sep]. *)
Fixpoint upto_last (sep : char) (p : str) : str :=
  match p with
  | [] => []
  | x :: p' =>
      match upto_last sep p' with
      | [] => if (x =? sep)%N then [x] else []
      | head => x :: head
      end
  end.

Fixpoint lstrip_char (c : char) (s : str) : str :=
  match s with
  | x :: s' => if (x =? c)%N then lstrip_char c s' else s
  | [] => []
  end.

(** [s.rstrip(c)] *)
Definition rstrip_char (c : char) (s : str) : str :=
  rev (lstrip_char c (rev s)).

(** [s == c * len(s)] *)
Definition all_char (c : char) (s : str) : bool :=
  forallb (λ x, (x =? c)%N) s.

(** [posixpath.dirname(p)] *)
Definition os_path_dirname (p : str) : str :=
  let head := upto_last Char.slash p in
  if negb (bool_decide (head = [])) && negb (all_char Char.slash head)
  then rstrip_char Char.slash head
  else head.

(** Lines 56-69. *)
Definition _get_working_directory (w : window) : str :=
  let fallback :=
    match folders w with
    | folder :: _ => folder
    | [] => home w
    end in
  match active_view w with
  | Some v =>
      match file_name v with
      | Some name =>
          if bool_decide (name = []) then fallback else os_path_dirname name
      | None => fallback
      end
  | None => fallback
  end.

(** ** Further reference definitions *)

Definition is_open_file (e : effect) : bool :=
  match e with
  | open_file _ => true
  | _ => false
  end.

(** The number of items a panel offers. *)
Definition items_count (e : effect) : nat :=
  match e with
  | show_quick_panel (Rows rows) _ _ _ => length rows
  | show_quick_panel (Names names) _ _ _ => length names
  | open_file _ => 0
  end.

(** An answer the window can give to the open panel: -1 for a dismissal
    or the index of one of its items. *)
Definition valid_answer (s : session) (index : Z) : Prop :=
  pending s ≠ None
  ∧ (index = -1
     ∨ ∃ e, last (ui (mach s)) = Some e
            ∧ 0 ≤ index < Z.of_nat (items_count e)).

(** Either no file was opened yet, or the session is over and the last
    effect is the only file opened, a path of one of the records joined to
    the root. *)
Definition opened_once (env : environment) (s : session) : Prop :=
  filter (λ e, is_open_file e) (ui (mach s)) = []
  ∨ (pending s = None
     ∧ ∃ u out r,
         ui (mach s) = u ++ [open_file (os_path_join (strip out) (path_of r))]
         ∧ filter (λ e, is_open_file e) u = []
         ∧ rev_parse env = Completed out
         ∧ r ∈ records_of (lines_of env)).

(** The notice [_show_file_list] shows for an empty category. *)
Definition empty_notice (k : filter_type) : effect :=
  notice (match k with
          | filter_all => py "No all changes"
          | filter_staged => py "No staged only"
          | filter_unstaged => py "No unstaged only"
          end).

(** One line of [git status --porcelain]: the two status characters, a
    space and the path; and an output of such lines, each ended by a
    newline. *)
Definition porcelain_line (r : record) : str :=
  status_of r ++ Char.space :: path_of r.

Definition porcelain (rs : list record) : str :=
  flat_map (λ r, porcelain_line r ++ [Char.newline]) rs.

(** Lines put together with a newline between them, the inverse of
    [split('\n')]. *)
Fixpoint join_lines (lines : list str) : str :=
  match lines with
  | [] => []
  | [l] => l
  | l :: lines' => l ++ Char.newline :: join_lines lines'
  end.

(** The first and the last character of a string are not white space. *)
Definition tight (s : str) : Prop :=
  (∃ x t, s = x :: t ∧ isspace x = false)
  ∧ (∃ t x, s = t ++ [x] ∧ isspace x = false).

Definition no_newline (s : str) : Prop := Char.newline ∉ s.

(** A path git prints as it is: not empty, no newline, no white space at
    either end, not wrapped in double quotes. *)
Definition plain_path (p : str) : bool :=
  negb (bool_decide (p = []))
  && forallb (λ c, negb (c =? Char.newline)%N) p
  && bool_decide (strip p = p)
  && negb (startswith_char Char.dquote p && endswith_char Char.dquote p).

(** A two-character status without a newline. *)
Definition plain_status (st : str) : bool :=
  bool_decide (length st = 2%nat)
  && forallb (λ c, negb (c =? Char.newline)%N) st.

Definition plain_record (r : record) : bool :=
  plain_status (status_of r) && plain_path (path_of r).

(** ** Sample invocations *)

Module Sample.
Definition root_stdout : str := py "/home/me/repo" ++ [Char.newline].

(** Two staged files, a modified one, an untracked one and a partially
    staged one. *)
Definition status_stdout : str :=
  py "M  file_a.txt" ++ Char.newline
  :: py " M file_b.txt" ++ Char.newline
  :: py "?? file_c.txt" ++ Char.newline
  :: py "A  file_d.txt" ++ Char.newline
  :: py "MM file_e.txt" ++ [Char.newline].

Definition env : environment :=
  Environment (Completed root_stdout) (λ _, Completed status_stdout).

(** A clean working tree. *)
Definition clean : environment :=
  Environment (Completed root_stdout) (λ _, Completed []).

(** The first line of the output starts with a space. *)
Definition modified_first : environment :=
  Environment (Completed root_stdout)
    (λ _, Completed (py " M file_b.txt" ++ Char.newline
                     :: py "?? file_c.txt" ++ [Char.newline])).

Definition fresh : machine := Machine initial_command [].
End Sample.

(** ** More sample invocations *)

Module Cases.
(** The records of [Sample.status_stdout]. *)
Definition records : list record :=
  [ (py "file_a.txt", py "M "); (py "file_b.txt", py " M");
    (py "file_c.txt", py "??"); (py "file_d.txt", py "A ");
    (py "file_e.txt", py "MM") ].

(** Only an untracked file: nothing is staged. *)
Definition untracked_only : environment :=
  Environment (Completed Sample.root_stdout)
    (λ _, Completed (py "?? notes.txt" ++ [Char.newline])).

(** A window whose active view shows a file of the repository. *)
Definition editing : window :=
  Window (Some (View (Some (py "/home/me/repo/src/main.py"))))
    [py "/home/me/other"] (py "/home/me").
End Cases.

(** ** Short lines at the ends of the output *)

(** Some character of [s] is not white space. *)
Definition has_ink (s : str) : bool :=
  existsb (λ c, negb (isspace c)) s.

Module Edge.
(** The only line has 3 characters: a status and the separator. *)
Definition only_line : environment :=
  Environment (Completed Sample.root_stdout)
    (λ _, Completed (py "D  " ++ [Char.newline])).

(** The same line as the last of two. *)
Definition last_line : environment :=
  Environment (Completed Sample.root_stdout)
    (λ _, Completed (py "M  a.txt" ++ Char.newline :: py "D  "
                     ++ [Char.newline])).

(** The same line between two others. *)
Definition middle_line : environment :=
  Environment (Completed Sample.root_stdout)
    (λ _, Completed ((py "M  a.txt" ++ [Char.newline]) ++ py "D  "
                     ++ Char.newline :: py "A  b.txt" ++ [Char.newline])).
End Edge.

(** * Properties *)

Arguments py : simpl never.
Arguments strip : simpl never.
Arguments split_lines : simpl never.
Arguments list_sort : simpl never.
Arguments filter_menu : simpl never.
Arguments os_path_join : simpl never.
Arguments parse_line : simpl never.


(** ** The order on strings *)

Lemma str_eqb_eq (a b : str) : str_eqb a b = true ↔ a = b.
Proof.
  revert b; induction a as [|x a IH]; intros [|y b]; simpl; try (split; congruence).
  rewrite andb_true_iff, N.eqb_eq, IH. split; [intros [-> ->]; reflexivity | ].
  intros E; injection E; auto.
Qed.

Lemma str_leb_refl (a : str) : str_leb a a = true.
Proof.
  induction a as [|x a IH]; simpl; [reflexivity|].
  rewrite N.ltb_irrefl, N.eqb_refl. exact IH.
Qed.

Lemma str_leb_total (a b : str) : str_leb a b = true ∨ str_leb b a = true.
Proof.
  revert b; induction a as [|x a IH]; intros [|y b]; simpl; auto.
  destruct (N.ltb_spec x y), (N.ltb_spec y x); auto; try lia.
  assert (x = y) as -> by lia. rewrite N.eqb_refl. apply IH.
Qed.

Lemma str_leb_trans (a b c : str) :
  str_leb a b = true → str_leb b c = true → str_leb a c = true.
Proof.
  revert b c; induction a as [|x a IH]; intros [|y b] [|z c]; simpl; auto;
    try discriminate.
  destruct (N.ltb_spec x y), (N.ltb_spec y z), (N.ltb_spec x z); auto; try lia;
    destruct (N.eqb_spec x y), (N.eqb_spec y z), (N.eqb_spec x z);
    try discriminate; try lia; eauto.
Qed.

Lemma str_leb_antisym (a b : str) :
  str_leb a b = true → str_leb b a = true → a = b.
Proof.
  revert b; induction a as [|x a IH]; intros [|y b]; simpl; auto;
    try discriminate.
  destruct (N.ltb_spec x y), (N.ltb_spec y x), (N.eqb_spec x y),
    (N.eqb_spec y x); try discriminate; try lia.
  subst y. intros; f_equal; auto.
Qed.

#[export] Instance str_le_refl : Reflexive str_le.
Proof. exact str_leb_refl. Qed.
#[export] Instance str_le_trans : Transitive str_le.
Proof. exact str_leb_trans. Qed.
#[export] Instance str_le_total : Total str_le.
Proof. exact str_leb_total. Qed.
#[export] Instance str_le_antisym : AntiSymm (=) str_le.
Proof. exact str_leb_antisym. Qed.

(** ** The stable sort *)

Section SortFacts.
Context {A : Type} (key : A → str).

Lemma insort_Permutation (x : A) (l : list A) : insort key x l ≡ₚ x :: l.
Proof.
  induction l as [|y l IH]; simpl; [reflexivity|].
  destruct (str_leb (key x) (key y)); [reflexivity|].
  rewrite IH. apply Permutation_swap.
Qed.

Lemma list_sort_cons (x : A) (l : list A) :
  list_sort key (x :: l) = insort key x (list_sort key l).
Proof. reflexivity. Qed.

Lemma list_sort_Permutation (l : list A) : list_sort key l ≡ₚ l.
Proof.
  induction l as [|x l IH]; [reflexivity|].
  rewrite list_sort_cons, insort_Permutation. by f_equiv.
Qed.

Lemma insort_HdRel (a x : A) (l : list A) :
  key_le key a x → HdRel (key_le key) a l → HdRel (key_le key) a (insort key x l).
Proof.
  intros Hax Hal. destruct l as [|y l]; simpl; [by constructor|].
  destruct (str_leb (key x) (key y)); constructor; [done|].
  by inversion Hal.
Qed.

Lemma insort_Sorted (x : A) (l : list A) :
  Sorted (key_le key) l → Sorted (key_le key) (insort key x l).
Proof.
  induction 1 as [|y l Hs IH Hd]; simpl; [by repeat constructor|].
  destruct (str_leb (key x) (key y)) eqn:E.
  - constructor; [by constructor|]. by constructor.
  - constructor; [done|]. apply insort_HdRel; [|done].
    destruct (str_leb_total (key x) (key y)) as [H|H]; [congruence|done].
Qed.

Lemma list_sort_Sorted (l : list A) : Sorted (key_le key) (list_sort key l).
Proof.
  induction l as [|x l IH]; [constructor|].
  rewrite list_sort_cons. by apply insort_Sorted.
Qed.

(** The sort is stable: entries with equal keys keep their order. *)
Lemma insort_filter_key (k : str) (x : A) (l : list A) :
  filter (λ y, key y = k) (insort key x l) = filter (λ y, key y = k) (x :: l).
Proof.
  induction l as [|y l IH]; simpl; [done|].
  destruct (str_leb (key x) (key y)) eqn:E; [done|].
  rewrite (filter_cons _ y), IH, !(filter_cons _ x), (filter_cons _ y).
  destruct (decide (key x = k)) as [Hx|Hx], (decide (key y = k)) as [Hy|Hy];
    try done.
  rewrite Hx, Hy, str_leb_refl in E. done.
Qed.

Lemma list_sort_stable (k : str) (l : list A) :
  filter (λ y, key y = k) (list_sort key l) = filter (λ y, key y = k) l.
Proof.
  induction l as [|x l IH]; [done|].
  by rewrite list_sort_cons, insort_filter_key, !filter_cons, IH.
Qed.

Lemma list_sort_nil_inv (l : list A) : list_sort key l = [] → l = [].
Proof.
  intros E. apply Permutation_nil_r. rewrite <- E.
  symmetry. apply list_sort_Permutation.
Qed.
End SortFacts.

Lemma key_le_id (l : list str) : Sorted (key_le id) l → Sorted str_le l.
Proof. done. Qed.

Lemma Sorted_map_path (rs : list record) :
  Sorted (key_le path_of) rs → Sorted str_le (map path_of rs).
Proof. apply (Sorted_fmap path_of). done. Qed.

(** ** Dropping the paths already seen *)

Lemma elem_of_unseen (seen : gset str) (l : list str) (p : str) :
  p ∈ unseen seen l ↔ p ∈ l ∧ p ∉ seen.
Proof.
  revert seen; induction l as [|x l IH]; intros seen; simpl.
  - set_solver.
  - case_bool_decide.
    + rewrite IH. set_solver.
    + rewrite !elem_of_cons, IH. destruct (decide (p = x)); set_solver.
Qed.

Lemma NoDup_unseen (seen : gset str) (l : list str) : NoDup (unseen seen l).
Proof.
  revert seen; induction l as [|x l IH]; intros seen; simpl.
  - constructor.
  - case_bool_decide; [apply IH|].
    constructor; [|apply IH]. rewrite elem_of_unseen. set_solver.
Qed.

Lemma unseen_keep_first (seen : gset str) (l : list str) :
  unseen seen l = filter (λ y, y ∉ seen) (keep_first l).
Proof.
  revert seen; induction l as [|x l IH]; intros seen; simpl; [done|].
  case_bool_decide as Hx.
  - rewrite filter_cons_False by tauto.
    rewrite list_filter_filter, IH. apply list_filter_iff. set_solver.
  - rewrite filter_cons_True by done. f_equal.
    rewrite list_filter_filter, IH. apply list_filter_iff. set_solver.
Qed.

Lemma unseen_empty (l : list str) : unseen ∅ l = keep_first l.
Proof.
  rewrite unseen_keep_first.
  induction (keep_first l) as [|x k IH]; [done|].
  rewrite filter_cons_True by set_solver. by f_equal.
Qed.

Lemma unseen_StronglySorted (seen : gset str) (l : list str) :
  StronglySorted str_le l → StronglySorted str_le (unseen seen l).
Proof.
  intros Hl; revert seen; induction Hl as [|x l Hl IH Hx]; intros seen; simpl.
  - constructor.
  - case_bool_decide; [apply IH|].
    constructor; [apply IH|].
    rewrite Forall_forall in Hx |- *. intros y Hy.
    apply elem_of_unseen in Hy as [Hy _]. by apply Hx.
Qed.

Lemma unseen_Sorted (l : list str) :
  Sorted str_le l → Sorted str_le (unseen ∅ l).
Proof.
  intros Hl. apply StronglySorted_Sorted, unseen_StronglySorted.
  by apply Sorted_StronglySorted; [apply _|].
Qed.

Lemma unseen_nil_inv (l : list str) : unseen ∅ l = [] → l = [].
Proof. destruct l as [|x l]; simpl; [done|]. case_bool_decide; set_solver. Qed.

(** ** The loop of [_get_changed_files] *)

Lemma classify_line_run (line : str) (m : machine) :
  classify_line line m = (inr tt, Machine (absorb line (self m)) (ui m)).
Proof.
  unfold classify_line, absorb. destruct m as [c u]; simpl.
  destruct (parse_line line) as [[file_path status]|]; [|done].
  unfold bind, modify, when, ret; simpl.
  destruct c; unfold status_of, path_of; simpl.
  destruct (is_staged status), (is_unstaged status); simpl;
    by rewrite ?app_nil_r.
Qed.

Lemma for_each_classify (lines : list str) (m : machine) :
  for_each classify_line lines m =
  (inr tt,
   Machine
     (Command (git_root (self m))
        (all_files (self m) ++ records_of lines)
        (staged_files (self m) ++ staged_paths (records_of lines))
        (unstaged_files (self m) ++ unstaged_paths (records_of lines))
        (current_level (self m)) (selected_filter (self m)))
     (ui m)).
Proof.
  revert m; induction lines as [|line lines IH]; intros [c u].
  - destruct c; simpl. unfold ret, staged_paths, unstaged_paths; simpl.
    by rewrite !app_nil_r.
  - cbn [for_each]. unfold bind at 1. rewrite classify_line_run, IH.
    unfold absorb, records_of, staged_paths, unstaged_paths; simpl.
    destruct (parse_line line) as [r|]; simpl; [|done].
    rewrite !filter_cons.
    destruct (is_staged (status_of r)), (is_unstaged (status_of r)); simpl;
      repeat case_decide; try done; simpl;
      by rewrite <- ?app_assoc, ?app_nil_r.
Qed.

(** Short lines leave the loop's result unchanged. *)
Lemma records_of_long (lines : list str) :
  records_of lines = records_of (filter (λ l, (3 ≤ length l)%nat) lines).
Proof.
  unfold records_of. induction lines as [|l lines IH]; [done|].
  rewrite filter_cons. case_decide as Hl.
  - cbn [omap list_omap]. fold (omap parse_line lines).
    fold (omap parse_line (filter (λ l, (3 ≤ length l)%nat) lines)).
    by rewrite IH.
  - cbn [omap list_omap]. fold (omap parse_line lines).
    unfold parse_line. destruct (Nat.ltb_spec (length l) 3); [done|lia].
Qed.

(** ** The session after the command is invoked *)

Lemma split_lines_nil : split_lines [] = [[]].
Proof. done. Qed.

Lemma show_error_run (message : str) (m : machine) :
  _show_error message m = (inr tt, Machine (self m) (ui m ++ [notice message])).
Proof. reflexivity. Qed.

Lemma check_git_repo_run (env : environment) (m : machine) :
  _check_git_repo env m =
  match rev_parse env with
  | Completed out =>
      (inr true, Machine (set_git_root (Some (strip out)) (self m)) (ui m))
  | _ => (inr false, m)
  end.
Proof. unfold _check_git_repo. by destruct (rev_parse env). Qed.

Lemma get_changed_files_run (env : environment) (m : machine) :
  _get_changed_files env m =
  match status_porcelain env (git_root (self m)) with
  | Completed stdout =>
      if bool_decide (strip stdout = []) then (inr false, m)
      else
        let c := sorted_lists (records_of (split_lines (strip stdout))) (self m) in
        (inr (0 <? length (all_files c))%nat, Machine c (ui m))
  | CalledProcessError e =>
      (inr false,
       Machine (self m) (ui m ++ [notice (py "Error running git: " ++ e)]))
  | FileNotFoundError =>
      (inr false,
       Machine (self m) (ui m ++ [notice (py "Git not found in PATH")]))
  end.
Proof.
  unfold _get_changed_files, bind at 1, get at 1.
  destruct (status_porcelain env (git_root (self m))) as [stdout|e|]; try done.
  case_bool_decide; [done|].
  unfold bind at 1. rewrite for_each_classify. reflexivity.
Qed.

Lemma show_filter_selection_run (m : machine) :
  _show_filter_selection m =
  (inr tt, Machine (self m) (ui m ++ [menu_panel (self m)])).
Proof. reflexivity. Qed.

Lemma run_run (env : environment) (m : machine) :
  run env m = (inr tt, Machine (classified env) (ui m ++ start_trace env)).
Proof.
  unfold run, bind at 1, modify at 1, bind at 1.
  rewrite check_git_repo_run.
  unfold start_trace, classified, lines_of, root_of.
  destruct (rev_parse env) as [out|e|]; try done.
  cbn [negb]. unfold bind at 1. rewrite get_changed_files_run.
  cbn [self git_root set_git_root initial_command].
  destruct (status_porcelain env (Some (strip out))) as [stdout|e|];
    [|cbn [negb ui self]; rewrite show_error_run; cbn [ui self];
      by rewrite <- app_assoc..].
  case_bool_decide as Hout.
  - rewrite Hout, split_lines_nil. done.
  - set (rs := records_of (split_lines (strip stdout))).
    cbn zeta. unfold sorted_lists.
    cbn [self all_files staged_files unstaged_files app git_root current_level
         selected_filter ui set_git_root initial_command].
    destruct (Nat.ltb_spec 0 (length (list_sort path_of rs))) as [Hn|Hn].
    + rewrite bool_decide_eq_false_2; [done|].
      intros E; rewrite E in Hn; simpl in Hn; lia.
    + assert (rs = []) as ->.
      { apply (list_sort_nil_inv path_of).
        destruct (list_sort path_of rs); [done | simpl in Hn; lia]. }
      done.
Qed.

Lemma start_eq (env : environment) :
  start env =
  Session (Machine (classified env) (start_trace env))
    (panel_after (start_trace env)) None.
Proof. unfold start, settle. by rewrite run_run. Qed.

(** ** One answer of the user *)

Lemma show_file_list_run (m : machine) :
  _show_file_list m = (inr tt, Machine (self m) (ui m ++ [file_panel (self m)])).
Proof.
  unfold _show_file_list, file_panel, bind, get.
  destruct (files_to_show (self m)) as [files name]; cbn [fst snd].
  by case_bool_decide.
Qed.

Lemma on_filter_selected_run (index : Z) (m : machine) :
  _on_filter_selected index m =
  if index =? -1 then (inr tt, m)
  else match py_index filter_types index with
       | None => (inl IndexError, m)
       | Some k =>
           let c := set_selected_filter (Some k) (self m) in
           (inr tt, Machine c (ui m ++ [file_panel c]))
       end.
Proof.
  unfold _on_filter_selected. destruct (index =? -1); [done|].
  destruct (py_index filter_types index) as [k|]; [|done].
  unfold bind, modify. by rewrite show_file_list_run.
Qed.

Lemma on_file_selected_run (index : Z) (m : machine) :
  _on_file_selected index m =
  if index =? -1 then (inr tt, Machine (self m) (ui m ++ [menu_panel (self m)]))
  else match py_index (files_to_open (self m)) index with
       | None => (inl IndexError, m)
       | Some file_path =>
           match git_root (self m) with
           | None => (inl TypeError, m)
           | Some root =>
               (inr tt,
                Machine (self m)
                  (ui m ++ [open_file (os_path_join root file_path)]))
           end
       end.
Proof.
  unfold _on_file_selected. destruct (index =? -1); [done|].
  unfold bind, get.
  destruct (py_index (files_to_open (self m)) index); [|done].
  by destruct (git_root (self m)).
Qed.

Lemma settle_app (c : command) (u es : list effect) (r : exn + unit) :
  settle (length u) (r, Machine c (u ++ es)) =
  Session (Machine c (u ++ es)) (panel_after es)
    (match r with inl e => Some e | inr _ => None end).
Proof. unfold settle; cbn [fst snd ui]. by rewrite drop_app_length. Qed.

Lemma settle_same (m : machine) (r : exn + unit) :
  settle (length (ui m)) (r, m) =
  Session m None (match r with inl e => Some e | inr _ => None end).
Proof. unfold settle; cbn [fst snd]. by rewrite drop_all. Qed.

(** The two places that compute the file list agree on one command object. *)
Lemma files_to_show_open (c : command) : (files_to_show c).1 = files_to_open c.
Proof.
  unfold files_to_show, files_to_open.
  by destruct (selected_filter c) as [[]|].
Qed.

Lemma panel_after_file_panel (c : command) :
  panel_after [file_panel c] =
  if bool_decide ((files_to_show c).1 = []) then None
  else Some cb_on_file_selected.
Proof. unfold file_panel. by case_bool_decide. Qed.

Lemma deliver_filter (s : session) (index : Z) :
  pending s = Some cb_on_filter_selected →
  deliver s index =
  if index =? -1 then Session (mach s) None None
  else match py_index filter_types index with
       | None => Session (mach s) None (Some IndexError)
       | Some k =>
           let c := set_selected_filter (Some k) (self (mach s)) in
           Session (Machine c (ui (mach s) ++ [file_panel c]))
             (panel_after [file_panel c]) None
       end.
Proof.
  intros Hp. unfold deliver. rewrite Hp. cbn [dispatch].
  rewrite on_filter_selected_run. destruct (index =? -1).
  - by rewrite settle_same.
  - destruct (py_index filter_types index) as [k|].
    + cbn zeta. by rewrite settle_app.
    + by rewrite settle_same.
Qed.

Lemma deliver_file (s : session) (index : Z) :
  pending s = Some cb_on_file_selected →
  deliver s index =
  if index =? -1 then
    Session (Machine (self (mach s)) (ui (mach s) ++ [menu_panel (self (mach s))]))
      (Some cb_on_filter_selected) None
  else match py_index (files_to_open (self (mach s))) index with
       | None => Session (mach s) None (Some IndexError)
       | Some file_path =>
           match git_root (self (mach s)) with
           | None => Session (mach s) None (Some TypeError)
           | Some root =>
               Session
                 (Machine (self (mach s))
                    (ui (mach s) ++ [open_file (os_path_join root file_path)]))
                 None None
           end
       end.
Proof.
  intros Hp. unfold deliver. rewrite Hp. cbn [dispatch].
  rewrite on_file_selected_run. destruct (index =? -1).
  - by rewrite settle_app.
  - destruct (py_index (files_to_open (self (mach s))) index) as [p|].
    + destruct (git_root (self (mach s))).
      * by rewrite settle_app.
      * by rewrite settle_same.
    + by rewrite settle_same.
Qed.

Lemma deliver_done (s : session) (index : Z) :
  pending s = None → deliver s index = s.
Proof. intros Hp. unfold deliver. by rewrite Hp. Qed.

Lemma consistent_deliver (s : session) (index : Z) :
  consistent (deliver s index).
Proof.
  destruct (pending s) as [[]|] eqn:Hp.
  - rewrite deliver_filter by done. destruct (index =? -1); [by intros ?|].
    destruct (py_index filter_types index) as [k|]; [|by intros ?].
    cbn zeta. intros Hq. cbn [pending] in Hq.
    rewrite panel_after_file_panel in Hq. case_bool_decide as Hf; [done|].
    cbn [mach ui self]. rewrite last_snoc. unfold file_panel.
    rewrite bool_decide_eq_false_2 by done. eauto.
  - rewrite deliver_file by done. destruct (index =? -1); [by intros ?|].
    destruct (py_index _ index); [|by intros ?].
    destruct (git_root _); by intros ?.
  - rewrite deliver_done by done. intros Hq. congruence.
Qed.

Lemma consistent_start (env : environment) : consistent (start env).
Proof.
  rewrite start_eq. intros Hq. cbn [pending] in Hq. exfalso. revert Hq.
  unfold start_trace.
  destruct (rev_parse env); try done.
  destruct (status_porcelain env _); try done.
  by case_bool_decide.
Qed.

Lemma consistent_play (env : environment) (answers : list Z) :
  consistent (play env answers).
Proof.
  unfold play. destruct answers as [|a answers _] using rev_ind.
  - apply consistent_start.
  - rewrite foldl_snoc. apply consistent_deliver.
Qed.

(** ** The lists are fixed once [run] has returned *)

Lemma deliver_same_lists (s : session) (index : Z) :
  same_lists (self (mach s)) (self (mach (deliver s index))).
Proof.
  destruct (pending s) as [[]|] eqn:Hp.
  - rewrite deliver_filter by done. destruct (index =? -1); [done|].
    by destruct (py_index filter_types index).
  - rewrite deliver_file by done. destruct (index =? -1); [done|].
    destruct (py_index _ index); [|done]. by destruct (git_root _).
  - by rewrite deliver_done.
Qed.

Lemma play_same_lists (env : environment) (answers : list Z) :
  same_lists (classified env) (self (mach (play env answers))).
Proof.
  unfold play. induction answers as [|a answers IH] using rev_ind.
  - by rewrite start_eq.
  - rewrite foldl_snoc.
    destruct IH as (? & ? & ? & ?).
    destruct (deliver_same_lists (foldl deliver (start env) answers) a)
      as (? & ? & ? & ?).
    repeat split; congruence.
Qed.

Lemma presented_same_lists (k : filter_type) (c c' : command) :
  same_lists c c' → presented k c' = presented k c.
Proof.
  intros (_ & Ha & Hs & Hu). unfold presented, files_to_show.
  destruct k;
    cbn [selected_filter set_selected_filter fst all_files staged_files
         unstaged_files];
    by rewrite ?Ha, ?Hs, ?Hu.
Qed.

(** ** Parsing and classifying one line *)

Lemma snoc_ne {A} (l : list A) (x : A) : l ++ [x] ≠ l.
Proof.
  intros E. apply (f_equal length) in E. rewrite length_app in E.
  simpl in E. lia.
Qed.

Lemma is_staged_spec (status : str) :
  is_staged status = true ↔
  first_char status ≠ Char.space ∧ first_char status ≠ Char.question.
Proof.
  unfold is_staged. rewrite negb_true_iff, orb_false_iff, !N.eqb_neq. done.
Qed.

Lemma is_unstaged_spec (status : str) :
  is_unstaged status = true ↔
  second_char status ≠ Char.space ∨ status = [Char.question; Char.question].
Proof.
  unfold is_unstaged.
  rewrite orb_true_iff, negb_true_iff, N.eqb_neq, str_eqb_eq. done.
Qed.

Lemma parse_line_status (line : str) (r : record) :
  parse_line line = Some r →
  status_of r = take 2 line ∧ length (status_of r) = 2%nat
  ∧ first_char (status_of r) = nth 0 line 0%N
  ∧ second_char (status_of r) = nth 1 line 0%N.
Proof.
  unfold parse_line. destruct (Nat.ltb_spec (length line) 3) as [|Hl]; [done|].
  intros [= <-]. destruct line as [|a [|b [|c line]]]; simpl in Hl; try lia.
  done.
Qed.

(** C1: for every line that parses to a record, the loop body appends the
    record's path to [staged_files] if and only if the first character of
    its two-character status (the first character of the line) is neither a
    space nor '?'; otherwise [staged_files] is left as it was. *)
Theorem staged_iff_index_status (line : str) (r : record) (m : machine) :
  parse_line line = Some r →
  let before := staged_files (self m) in
  let after := staged_files (self (classify_line line m).2) in
  first_char (status_of r) = nth 0 line 0%N
  ∧ (after = before ++ [path_of r] ↔
     first_char (status_of r) ≠ Char.space
     ∧ first_char (status_of r) ≠ Char.question)
  ∧ (after = before ↔
     first_char (status_of r) = Char.space
     ∨ first_char (status_of r) = Char.question).
Proof.
  intros Hr. cbn zeta. split; [apply (parse_line_status _ _ Hr)|].
  rewrite classify_line_run. unfold absorb. rewrite Hr.
  cbn [snd self staged_files].
  pose proof (is_staged_spec (status_of r)) as Hs.
  destruct (is_staged (status_of r)).
  - assert (first_char (status_of r) ≠ Char.space
            ∧ first_char (status_of r) ≠ Char.question) as Hne by by apply Hs.
    split; [done|]. split; [by intros E%snoc_ne|]. tauto.
  - rewrite app_nil_r.
    assert (¬ (first_char (status_of r) ≠ Char.space
               ∧ first_char (status_of r) ≠ Char.question)) as Hn.
    { intros H. by apply Hs in H. }
    split.
    + split; [by intros E; symmetry in E; apply snoc_ne in E | done].
    + split; [|done]. intros _.
      destruct (decide (first_char (status_of r) = Char.space)); [tauto|].
      destruct (decide (first_char (status_of r) = Char.question)); tauto.
Qed.

(** C2: for every line that parses to a record, the loop body appends the
    record's path to [unstaged_files] if and only if the second character of
    its status is not a space or the status is "??"; otherwise
    [unstaged_files] is left as it was. *)
Theorem unstaged_iff_worktree_status (line : str) (r : record) (m : machine) :
  parse_line line = Some r →
  let before := unstaged_files (self m) in
  let after := unstaged_files (self (classify_line line m).2) in
  second_char (status_of r) = nth 1 line 0%N
  ∧ (after = before ++ [path_of r] ↔
     second_char (status_of r) ≠ Char.space
     ∨ status_of r = [Char.question; Char.question])
  ∧ (after = before ↔
     ¬ (second_char (status_of r) ≠ Char.space
        ∨ status_of r = [Char.question; Char.question])).
Proof.
  intros Hr. cbn zeta. split; [apply (parse_line_status _ _ Hr)|].
  rewrite classify_line_run. unfold absorb. rewrite Hr.
  cbn [snd self unstaged_files].
  pose proof (is_unstaged_spec (status_of r)) as Hs.
  destruct (is_unstaged (status_of r)).
  - assert (second_char (status_of r) ≠ Char.space
            ∨ status_of r = [Char.question; Char.question]) as Hne
      by by apply Hs.
    split; [done|]. split; [by intros E%snoc_ne|]. tauto.
  - rewrite app_nil_r.
    assert (¬ (second_char (status_of r) ≠ Char.space
               ∨ status_of r = [Char.question; Char.question])) as Hn.
    { intros H. by apply Hs in H. }
    split; [|done].
    split; [by intros E; symmetry in E; apply snoc_ne in E | done].
Qed.

(** C4: a line shorter than 3 characters yields no record, and the loop
    body leaves the command object (so all three lists) and the window
    untouched. *)
Theorem short_line_discarded (line : str) (m : machine) :
  (length line < 3)%nat →
  parse_line line = None ∧ classify_line line m = (inr tt, m).
Proof.
  intros Hl.
  assert (parse_line line = None) as Hp.
  { unfold parse_line. by destruct (Nat.ltb_spec (length line) 3); [|lia]. }
  split; [done|]. rewrite classify_line_run. unfold absorb. rewrite Hp.
  by destruct m.
Qed.

(** The loop body on a line of exactly 3 characters: it parses to the
    record with the empty path and the line's first two characters as
    status, which is appended to [all_files] and classified by the same two
    tests as any other record. *)
Lemma three_char_line_body (line : str) (m : machine) :
  length line = 3%nat →
  let status := take 2 line in
  let c := self m in
  let c' := self (classify_line line m).2 in
  parse_line line = Some ([], status)
  ∧ all_files c' = all_files c ++ [([], status)]
  ∧ staged_files c' = staged_files c ++ (if is_staged status then [[]] else [])
  ∧ unstaged_files c' =
    unstaged_files c ++ (if is_unstaged status then [[]] else []).
Proof.
  intros Hl. cbn zeta.
  assert (parse_line line = Some ([], take 2 line)) as Hp.
  { destruct line as [|a [|b [|c [|d line]]]]; try done. }
  split; [done|]. rewrite classify_line_run. unfold absorb. by rewrite Hp.
Qed.

(** ** The three lists a session presents *)

Lemma staged_paths_Permutation (rs rs' : list record) :
  rs ≡ₚ rs' → staged_paths rs ≡ₚ staged_paths rs'.
Proof. intros H. unfold staged_paths. apply Permutation_map. by rewrite H. Qed.

Lemma unstaged_paths_Permutation (rs rs' : list record) :
  rs ≡ₚ rs' → unstaged_paths rs ≡ₚ unstaged_paths rs'.
Proof. intros H. unfold unstaged_paths. apply Permutation_map. by rewrite H. Qed.

Lemma elem_of_map_path (p : str) (rs : list record) :
  p ∈ map path_of rs ↔ ∃ r, r ∈ rs ∧ path_of r = p.
Proof.
  rewrite list_elem_of_In, in_map_iff.
  split; intros (r & H1 & H2); exists r.
  - by rewrite list_elem_of_In.
  - by rewrite <- list_elem_of_In.
Qed.

Lemma elem_of_staged_paths (p : str) (rs : list record) :
  p ∈ staged_paths rs ↔
  ∃ r, r ∈ rs ∧ path_of r = p ∧ is_staged (status_of r) = true.
Proof.
  unfold staged_paths. rewrite elem_of_map_path.
  split; intros (r & H1 & H2).
  - apply list_elem_of_filter in H1 as [H1 H3]. exists r.
    by apply Is_true_true in H1.
  - destruct H2 as [H2 H3]. exists r. split; [|done].
    apply list_elem_of_filter. split; [by apply Is_true_true|done].
Qed.

Lemma elem_of_unstaged_paths (p : str) (rs : list record) :
  p ∈ unstaged_paths rs ↔
  ∃ r, r ∈ rs ∧ path_of r = p ∧ is_unstaged (status_of r) = true.
Proof.
  unfold unstaged_paths. rewrite elem_of_map_path.
  split; intros (r & H1 & H2).
  - apply list_elem_of_filter in H1 as [H1 H3]. exists r.
    by apply Is_true_true in H1.
  - destruct H2 as [H2 H3]. exists r. split; [|done].
    apply list_elem_of_filter. split; [by apply Is_true_true|done].
Qed.

(** C3: in every session the three lists a file panel can present are
    sorted by Python's string order; the "all" list has no duplicates and is
    the list of paths of [all_files] with only the first occurrence of each
    path kept, so it holds exactly the paths of the records; the staged and
    unstaged lists hold one entry per staged, respectively unstaged, record,
    so the path of a record that is both is in both lists. *)
Theorem presented_sorted_and_deduplicated (env : environment) (answers : list Z) :
  let c := self (mach (play env answers)) in
  (Sorted str_le (presented filter_all c)
   ∧ Sorted str_le (presented filter_staged c)
   ∧ Sorted str_le (presented filter_unstaged c))
  ∧ (NoDup (presented filter_all c)
     ∧ presented filter_all c = keep_first (map path_of (all_files c))
     ∧ ∀ p, p ∈ presented filter_all c ↔ ∃ r, r ∈ all_files c ∧ path_of r = p)
  ∧ (all_files c ≡ₚ records_of (lines_of env)
     ∧ presented filter_staged c ≡ₚ staged_paths (all_files c)
     ∧ presented filter_unstaged c ≡ₚ unstaged_paths (all_files c)
     ∧ ∀ r, r ∈ all_files c →
         is_staged (status_of r) = true → is_unstaged (status_of r) = true →
         path_of r ∈ presented filter_staged c
         ∧ path_of r ∈ presented filter_unstaged c).
Proof.
  cbn zeta. pose proof (play_same_lists env answers) as Hsame.
  rewrite !(presented_same_lists _ _ _ Hsame).
  destruct Hsame as (_ & -> & _ & _).
  set (rs := records_of (lines_of env)).
  assert (presented filter_all (classified env)
          = unseen ∅ (map path_of (list_sort path_of rs))) as -> by done.
  assert (presented filter_staged (classified env)
          = list_sort id (staged_paths rs)) as -> by done.
  assert (presented filter_unstaged (classified env)
          = list_sort id (unstaged_paths rs)) as -> by done.
  assert (all_files (classified env) = list_sort path_of rs) as -> by done.
  pose proof (list_sort_Permutation path_of rs) as Hperm.
  assert (list_sort id (staged_paths rs)
          ≡ₚ staged_paths (list_sort path_of rs)) as Hst.
  { rewrite list_sort_Permutation. by apply staged_paths_Permutation. }
  assert (list_sort id (unstaged_paths rs)
          ≡ₚ unstaged_paths (list_sort path_of rs)) as Hun.
  { rewrite list_sort_Permutation. by apply unstaged_paths_Permutation. }
  split; [|split].
  - split; [|split].
    + apply unseen_Sorted, Sorted_map_path, list_sort_Sorted.
    + apply key_le_id, list_sort_Sorted.
    + apply key_le_id, list_sort_Sorted.
  - split; [apply NoDup_unseen|]. split; [apply unseen_empty|].
    intros p. rewrite elem_of_unseen, elem_of_map_path. set_solver.
  - split; [done|]. split; [done|]. split; [done|].
    intros r Hr Hs Hu. split.
    + rewrite Hst. apply elem_of_staged_paths. by exists r.
    + rewrite Hun. apply elem_of_unstaged_paths. by exists r.
Qed.

(** ** The selection protocol *)

Lemma state_of_file (s : session) :
  state_of s = FileSelect ↔ pending s = Some cb_on_file_selected.
Proof. unfold state_of. by destruct (pending s) as [[]|]. Qed.

Lemma state_of_filter (s : session) :
  state_of s = FilterSelect ↔ pending s = Some cb_on_filter_selected.
Proof. unfold state_of. by destruct (pending s) as [[]|]. Qed.

Lemma state_of_done (s : session) : state_of s = Done ↔ pending s = None.
Proof. unfold state_of. by destruct (pending s) as [[]|]. Qed.

(** C5: the cancel index -1 delivered in FileSelect shows the filter menu
    again (one more panel, whose [on_select] is [_on_filter_selected]) and
    the session is in FilterSelect; delivered in FilterSelect it ends the
    session and adds nothing to the trace: no notice, no file opened. *)
Theorem cancel_goes_back_or_ends (s : session) :
  (state_of s = FileSelect →
   let s' := deliver s (-1) in
   state_of s' = FilterSelect
   ∧ ui (mach s') = ui (mach s) ++ [menu_panel (self (mach s))]
   ∧ self (mach s') = self (mach s)
   ∧ fault s' = None)
  ∧ (state_of s = FilterSelect →
     let s' := deliver s (-1) in
     state_of s' = Done
     ∧ ui (mach s') = ui (mach s)
     ∧ self (mach s') = self (mach s)
     ∧ fault s' = None
     ∧ ∀ index, deliver s' index = s').
Proof.
  split; intros Hs; cbn zeta.
  - apply state_of_file in Hs. by rewrite deliver_file.
  - apply state_of_filter in Hs. rewrite deliver_filter by done.
    by split_and!.
Qed.

(** C6: when [git rev-parse] fails, nothing is raised and one notice is
    shown, but the notice is "Not in a git repository" both when git exits
    with an error and when git is missing: the two sessions are equal. *)
Theorem root_failure_same_notice (e : str) (status : option str → completed) :
  let not_a_repo := start (Environment (CalledProcessError e) status) in
  let tool_missing := start (Environment FileNotFoundError status) in
  ui (mach tool_missing) = [notice (py "Not in a git repository")]
  ∧ fault tool_missing = None
  ∧ state_of tool_missing = Done
  ∧ tool_missing = not_a_repo.
Proof. cbn zeta. by rewrite !start_eq. Qed.

Lemma play_done (s : session) (answers : list Z) :
  pending s = None → foldl deliver s answers = s.
Proof.
  intros Hp. induction answers as [|a answers IH]; [done|].
  cbn [foldl]. by rewrite deliver_done.
Qed.

(** C7: when the status query succeeds with empty output (nothing but
    white space), the session shows exactly the notice "No changed files",
    is over at once, and no menu is shown whatever the user does next; a
    session whose status query fails shows a different trace, its error
    notice followed by the "No changed files" notice. *)
Theorem empty_status_reports_no_changes
    (env : environment) (out stdout : str) :
  rev_parse env = Completed out →
  status_porcelain env (Some (strip out)) = Completed stdout →
  strip stdout = [] →
  let s := start env in
  ui (mach s) = [notice (py "No changed files")]
  ∧ state_of s = Done
  ∧ fault s = None
  ∧ (∀ answers, play env answers = s)
  ∧ (∀ answers e, e ∈ ui (mach (play env answers)) → is_menu e = false)
  ∧ (∀ env' out',
       rev_parse env' = Completed out' →
       (∀ stdout', status_porcelain env' (Some (strip out')) ≠ Completed stdout') →
       ui (mach (start env')) ≠ ui (mach s)
       ∧ ∃ message,
           ui (mach (start env')) =
           [notice message; notice (py "No changed files")]).
Proof.
  intros Hrev Hst Hempty. cbn zeta.
  assert (start env =
          Session (Machine (classified env) [notice (py "No changed files")])
            None None) as Hstart.
  { rewrite start_eq. unfold start_trace, lines_of.
    rewrite Hrev, Hst, Hempty. done. }
  assert (∀ answers, play env answers = start env) as Hplay.
  { intros answers. unfold play. apply play_done. by rewrite Hstart. }
  rewrite Hstart. split_and!; try done.
  - intros answers. by rewrite Hplay.
  - intros answers e. rewrite Hplay, Hstart. cbn [mach ui].
    intros ->%list_elem_of_singleton. done.
  - intros env' out' Hrev' Hfail. cbn [mach ui].
    rewrite start_eq. unfold start_trace. rewrite Hrev'. cbn [mach ui].
    destruct (status_porcelain env' (Some (strip out'))) as [x|x|] eqn:E.
    + by destruct (Hfail x).
    + split; [done|by eexists].
    + split; [done|by eexists].
Qed.

Lemma py_index_nonneg {A} (l : list A) (index : Z) (x : A) :
  0 ≤ index → l !! Z.to_nat index = Some x → py_index l index = Some x.
Proof.
  intros H0 Hx. unfold py_index.
  pose proof (lookup_lt_Some _ _ _ Hx) as Hlt.
  destruct (Z.leb_spec 0 index); [|lia].
  destruct (Z.ltb_spec index (Z.of_nat (length l))); [done|lia].
Qed.

Lemma shown_names_file (s : session) :
  consistent s → pending s = Some cb_on_file_selected →
  shown_names s = (files_to_show (self (mach s))).1.
Proof.
  intros Hc Hp. destruct (Hc Hp) as (k & ph & _ & Hlast).
  unfold shown_names. by rewrite Hlast.
Qed.

(** C10: in every session that is in FileSelect, a filter kind is
    selected, the open panel shows the list [_show_file_list] computed for
    it, and the list [_on_file_selected] computes again from the command
    object is that same list, so every index looks up the same file in
    both. *)
Theorem selection_list_is_displayed_list
    (env : environment) (answers : list Z) :
  let s := play env answers in
  let c := self (mach s) in
  state_of s = FileSelect →
  ∃ k placeholder,
    selected_filter c = Some k
    ∧ last (ui (mach s)) =
      Some (show_quick_panel (Names (shown_names s))
              (Some cb_on_file_selected) 0%N placeholder)
    ∧ shown_names s = (files_to_show c).1
    ∧ shown_names s = presented k (classified env)
    ∧ files_to_open c = shown_names s
    ∧ ∀ index, py_index (files_to_open c) index = py_index (shown_names s) index.
Proof.
  cbn zeta. intros Hp%state_of_file.
  pose proof (consistent_play env answers) as Hc.
  pose proof (shown_names_file _ Hc Hp) as Hshown.
  destruct (Hc Hp) as (k & ph & Hk & Hlast).
  exists k, ph. rewrite Hshown. split_and!; try done.
  - rewrite <- (presented_same_lists k _ _ (play_same_lists env answers)).
    unfold presented, files_to_show. rewrite Hk.
    by destruct k.
  - apply symmetry, files_to_show_open.
  - intros index. by rewrite files_to_show_open.
Qed.

(** C8: in every session that is in FileSelect, choosing the file shown at
    a valid index opens exactly one file, the path
    [os.path.join(git_root, file_path)] with [git_root] the stripped output
    of [git rev-parse --show-toplevel]; nothing else is added to the trace
    and the session is over. *)
Theorem chosen_file_opened_once
    (env : environment) (answers : list Z) (out : str)
    (index : Z) (file_path : str) :
  let s := play env answers in
  rev_parse env = Completed out →
  state_of s = FileSelect →
  0 ≤ index →
  shown_names s !! Z.to_nat index = Some file_path →
  let s' := deliver s index in
  ui (mach s') =
    ui (mach s) ++ [open_file (os_path_join (strip out) file_path)]
  ∧ state_of s' = Done
  ∧ fault s' = None
  ∧ ∀ answers', foldl deliver s' answers' = s'.
Proof.
  cbn zeta. intros Hrev Hp%state_of_file H0 Hfile.
  pose proof (consistent_play env answers) as Hc.
  rewrite (shown_names_file _ Hc Hp), files_to_show_open in Hfile.
  destruct (play_same_lists env answers) as (Hroot & _).
  rewrite deliver_file by done.
  destruct (Z.eqb_spec index (-1)); [lia|].
  rewrite (py_index_nonneg _ _ _ H0 Hfile), Hroot.
  unfold classified, root_of. rewrite Hrev. cbn [git_root].
  split_and!; try done. intros answers'. by apply play_done.
Qed.

(** With a relative path and a root that does not end in a slash, the
    joined path is the root, a slash and the path. *)
Lemma os_path_join_relative (root file_path : str) :
  root ≠ [] →
  endswith_char Char.slash root = false →
  startswith_char Char.slash file_path = false →
  os_path_join root file_path = root ++ Char.slash :: file_path.
Proof.
  intros Hroot Hend Hstart. unfold os_path_join.
  rewrite Hstart, Hend, bool_decide_eq_false_2 by done. done.
Qed.

(** ** The properties at sample invocations *)

Lemma staged_iff_index_status_witness :
  parse_line (py "M  file_a.txt") = Some (py "file_a.txt", py "M ")
  ∧ staged_files (self (classify_line (py "M  file_a.txt") Sample.fresh).2)
    = [py "file_a.txt"].
Proof.
  split; [reflexivity|].
  destruct (staged_iff_index_status (py "M  file_a.txt")
              (py "file_a.txt", py "M ") Sample.fresh eq_refl)
    as (_ & H & _).
  apply H. split; discriminate.
Defined.

Lemma unstaged_iff_worktree_status_witness :
  parse_line (py "?? file_c.txt") = Some (py "file_c.txt", py "??")
  ∧ unstaged_files (self (classify_line (py "?? file_c.txt") Sample.fresh).2)
    = [py "file_c.txt"].
Proof.
  split; [reflexivity|].
  destruct (unstaged_iff_worktree_status (py "?? file_c.txt")
              (py "file_c.txt", py "??") Sample.fresh eq_refl)
    as (_ & H & _).
  apply H. right. reflexivity.
Defined.

Lemma short_line_discarded_witness :
  (length (py "M ") < 3)%nat
  ∧ parse_line (py "M ") = None
  ∧ classify_line (py "M ") Sample.fresh = (inr tt, Sample.fresh).
Proof.
  assert (length (py "M ") < 3)%nat as Hl by (vm_compute; lia).
  split; [exact Hl|]. exact (short_line_discarded (py "M ") Sample.fresh Hl).
Defined.

Lemma cancel_goes_back_or_ends_witness :
  (state_of (play Sample.env [0]) = FileSelect
   ∧ state_of (deliver (play Sample.env [0]) (-1)) = FilterSelect)
  ∧ (state_of (start Sample.env) = FilterSelect
     ∧ state_of (deliver (start Sample.env) (-1)) = Done).
Proof.
  assert (state_of (play Sample.env [0]) = FileSelect) as H1
    by (vm_compute; reflexivity).
  assert (state_of (start Sample.env) = FilterSelect) as H2
    by (vm_compute; reflexivity).
  split; (split; [assumption|]).
  - exact (proj1 (proj1 (cancel_goes_back_or_ends _) H1)).
  - exact (proj1 (proj2 (cancel_goes_back_or_ends _) H2)).
Defined.

Lemma empty_status_reports_no_changes_witness :
  strip [] = []
  ∧ ui (mach (start Sample.clean)) = [notice (py "No changed files")]
  ∧ state_of (start Sample.clean) = Done.
Proof.
  split; [reflexivity|].
  destruct (empty_status_reports_no_changes Sample.clean Sample.root_stdout []
              eq_refl eq_refl eq_refl) as (Hui & Hdone & _).
  split; [exact Hui | exact Hdone].
Defined.

Lemma chosen_file_opened_once_witness :
  state_of (play Sample.env [2]) = FileSelect
  ∧ shown_names (play Sample.env [2]) !! Z.to_nat 0 = Some (py "file_b.txt")
  ∧ ui (mach (deliver (play Sample.env [2]) 0)) =
    ui (mach (play Sample.env [2]))
    ++ [open_file (py "/home/me/repo/file_b.txt")].
Proof.
  assert (state_of (play Sample.env [2]) = FileSelect) as Hs
    by (vm_compute; reflexivity).
  assert (shown_names (play Sample.env [2]) !! Z.to_nat 0
          = Some (py "file_b.txt")) as Hf by (vm_compute; reflexivity).
  split; [exact Hs|]. split; [exact Hf|].
  exact (proj1 (chosen_file_opened_once Sample.env [2] Sample.root_stdout 0
                  (py "file_b.txt") eq_refl Hs (Z.le_refl 0) Hf)).
Defined.

Lemma selection_list_is_displayed_list_witness :
  (state_of (play Sample.env [0]) = FileSelect
   ∧ files_to_open (self (mach (play Sample.env [0])))
     = shown_names (play Sample.env [0]))
  ∧ (state_of (play Sample.env [1]) = FileSelect
     ∧ files_to_open (self (mach (play Sample.env [1])))
       = shown_names (play Sample.env [1]))
  ∧ (state_of (play Sample.env [0; -1; 2]) = FileSelect
     ∧ files_to_open (self (mach (play Sample.env [0; -1; 2])))
       = shown_names (play Sample.env [0; -1; 2])).
Proof.
  assert (state_of (play Sample.env [0]) = FileSelect) as H0
    by (vm_compute; reflexivity).
  assert (state_of (play Sample.env [1]) = FileSelect) as H1
    by (vm_compute; reflexivity).
  assert (state_of (play Sample.env [0; -1; 2]) = FileSelect) as H2
    by (vm_compute; reflexivity).
  split; [|split]; (split; [assumption|]).
  - destruct (selection_list_is_displayed_list Sample.env [0] H0)
      as (k & ph & _ & _ & _ & _ & H & _). exact H.
  - destruct (selection_list_is_displayed_list Sample.env [1] H1)
      as (k & ph & _ & _ & _ & _ & H & _). exact H.
  - destruct (selection_list_is_displayed_list Sample.env [0; -1; 2] H2)
      as (k & ph & _ & _ & _ & _ & H & _). exact H.
Defined.

(** The example of the specification: four lines, two staged and two
    unstaged paths, four paths in all. *)
Example four_line_example :
  let env :=
    Environment (Completed Sample.root_stdout)
      (λ _, Completed (py "M  file_a.txt" ++ Char.newline
                       :: py " M file_b.txt" ++ Char.newline
                       :: py "?? file_c.txt" ++ Char.newline
                       :: py "A  file_d.txt" ++ [Char.newline])) in
  let c := self (mach (start env)) in
  presented filter_staged c = [py "file_a.txt"; py "file_d.txt"]
  ∧ presented filter_unstaged c = [py "file_b.txt"; py "file_c.txt"]
  ∧ presented filter_all c =
    [py "file_a.txt"; py "file_b.txt"; py "file_c.txt"; py "file_d.txt"].
Proof. vm_compute. done. Qed.

(** [strip] is applied to the whole output before it is split, so a space
    that starts the first line's status is lost and the line is read one
    character to the left: " M file_b.txt" yields the staged path
    "ile_b.txt". *)
Example first_line_leading_space :
  all_files (self (mach (start Sample.modified_first))) =
  [(py "file_c.txt", py "??"); (py "ile_b.txt", py "M ")]
  ∧ staged_files (self (mach (start Sample.modified_first))) = [py "ile_b.txt"].
Proof. vm_compute. done. Qed.

(** ** Sessions: what every reachable session satisfies *)

Lemma play_snoc (env : environment) (answers : list Z) (a : Z) :
  play env (answers ++ [a]) = deliver (play env answers) a.
Proof. unfold play. apply foldl_snoc. Qed.

Lemma records_of_nil (lines : list str) :
  records_of lines = [] ↔ ∀ line, line ∈ lines → (length line < 3)%nat.
Proof.
  unfold records_of. induction lines as [|l lines IH].
  - split; [intros _ line Hl; by apply elem_of_nil in Hl | done].
  - cbn [omap list_omap]. fold (omap parse_line lines). unfold parse_line at 1.
    destruct (Nat.ltb_spec (length l) 3) as [Hl|Hl].
    + rewrite IH. split.
      * intros H line [->|Hin]%elem_of_cons; auto.
      * intros H line Hin. apply H. by right.
    + split; [done|]. intros H. specialize (H l (list_elem_of_here _ _)). lia.
Qed.

Lemma pending_start (env : environment) :
  pending (start env) =
  if bool_decide (records_of (lines_of env) = []) then None
  else Some cb_on_filter_selected.
Proof.
  rewrite start_eq. cbn [pending]. unfold start_trace, lines_of.
  destruct (rev_parse env) as [out|e|]; try done.
  destruct (status_porcelain env _) as [stdout|e|]; try done.
  by case_bool_decide.
Qed.

Lemma pending_deliver_open (s : session) (index : Z) :
  pending (deliver s index) ≠ None → pending s ≠ None.
Proof.
  intros H Hp. by rewrite deliver_done in H.
Qed.

(** A panel is open only in a repository with at least one record. *)
Lemma play_open (env : environment) (answers : list Z) :
  pending (play env answers) ≠ None →
  records_of (lines_of env) ≠ []
  ∧ ∃ out stdout,
      rev_parse env = Completed out
      ∧ status_porcelain env (Some (strip out)) = Completed stdout.
Proof.
  induction answers as [|a answers IH] using rev_ind.
  - unfold play; cbn [foldl]. rewrite pending_start.
    case_bool_decide as Hr; [done|]. intros _. split; [done|].
    revert Hr. unfold lines_of.
    destruct (rev_parse env) as [out|e|]; try done.
    destruct (status_porcelain env _) as [stdout|e|] eqn:E; try done.
    eauto.
  - rewrite play_snoc. intros H. by apply IH, (pending_deliver_open _ a).
Qed.

Lemma play_git_root (env : environment) (answers : list Z) :
  git_root (self (mach (play env answers))) = root_of env.
Proof. by destruct (play_same_lists env answers) as (-> & _). Qed.

Lemma filter_menu_same_lists (c c' : command) :
  same_lists c c' → filter_menu c' = filter_menu c.
Proof. intros (_ & Ha & Hs & Hu). unfold filter_menu. by rewrite Ha, Hs, Hu. Qed.

Lemma play_menu_panel (env : environment) (answers : list Z) :
  menu_panel (self (mach (play env answers))) = menu_panel (classified env).
Proof.
  unfold menu_panel.
  by rewrite (filter_menu_same_lists _ _ (play_same_lists env answers)).
Qed.

(** In FilterSelect the open panel is the filter menu. *)
Lemma play_filter_last (env : environment) (answers : list Z) :
  pending (play env answers) = Some cb_on_filter_selected →
  last (ui (mach (play env answers))) = Some (menu_panel (classified env)).
Proof.
  induction answers as [|a answers IH] using rev_ind.
  - unfold play; cbn [foldl]. rewrite pending_start, start_eq.
    case_bool_decide as Hr; [done|]. intros _. cbn [mach ui].
    unfold start_trace.
    destruct (play_open env []) as (_ & out & stdout & Hrev & Hst).
    { unfold play; cbn [foldl]. rewrite pending_start.
      by rewrite bool_decide_eq_false_2. }
    rewrite Hrev, Hst, bool_decide_eq_false_2; done.
  - rewrite play_snoc.
    destruct (pending (play env answers)) as [[]|] eqn:Hp.
    + rewrite deliver_filter by done. destruct (a =? -1); [done|].
      destruct (py_index filter_types a) as [k|]; [|done].
      cbn zeta. cbn [pending]. rewrite panel_after_file_panel.
      by case_bool_decide.
    + rewrite deliver_file by done. destruct (a =? -1).
      * intros _. cbn [mach ui]. by rewrite last_snoc, play_menu_panel.
      * destruct (py_index _ a); [|done]. by destruct (git_root _).
    + rewrite deliver_done by done. congruence.
Qed.

Lemma files_to_open_presented (c : command) (k : filter_type) :
  selected_filter c = Some k → files_to_open c = presented k c.
Proof.
  intros Hk. rewrite <- files_to_show_open. unfold presented, files_to_show.
  rewrite Hk. by destruct k.
Qed.

Lemma presented_set_filter (k k' : filter_type) (c : command) :
  presented k (set_selected_filter (Some k') c) = presented k c.
Proof. by destruct k. Qed.

Lemma play_presented (env : environment) (answers : list Z) (k : filter_type) :
  presented k (self (mach (play env answers))) = presented k (classified env).
Proof. apply presented_same_lists, play_same_lists. Qed.

Lemma size_list_to_set_unseen (l : list str) :
  size (list_to_set l : gset str) = length (unseen ∅ l).
Proof.
  rewrite <- (size_list_to_set (C:=gset str) (unseen ∅ l))
    by apply NoDup_unseen.
  f_equal. apply set_eq. intros x.
  rewrite !elem_of_list_to_set, elem_of_unseen. set_solver.
Qed.

Lemma presented_all_nil (c : command) :
  presented filter_all c = [] → all_files c = [].
Proof.
  unfold presented, files_to_show. cbn [selected_filter set_selected_filter fst
    all_files].
  intros H%unseen_nil_inv. by destruct (all_files c).
Qed.

Lemma elem_of_list_sort {A} (key : A → str) (x : A) (l : list A) :
  x ∈ list_sort key l ↔ x ∈ l.
Proof. by rewrite (list_sort_Permutation key l). Qed.

Lemma start_no_open_file (env : environment) (e : effect) :
  e ∈ ui (mach (start env)) → is_open_file e = false.
Proof.
  rewrite start_eq. cbn [mach ui]. unfold start_trace.
  destruct (rev_parse env) as [out|e'|];
    [destruct (status_porcelain env _) as [stdout|e'|];
     [case_bool_decide|..]|..];
    intros He;
    repeat (apply elem_of_cons in He as [->|He]; [done|]);
    by apply elem_of_nil in He.
Qed.

(** X4: what [run] shows for each way the two git calls can end that it
    handles.  [git rev-parse] ending with CalledProcessError or
    FileNotFoundError: the one notice "Not in a git repository".
    [git status] ending with CalledProcessError: "Error running git: ..."
    and then "No changed files"; with FileNotFoundError: "Git not found in
    PATH" and then "No changed files".  Both calls completed: the filter
    menu, left open, when the stripped output has a line of at least 3
    characters, and the one notice "No changed files" when it has none.  In
    each of these cases nothing is raised. *)
Theorem invocation_by_outcome (env : environment) :
  let s := start env in
  ((∃ e, rev_parse env = CalledProcessError e)
   ∨ rev_parse env = FileNotFoundError →
   ui (mach s) = [notice (py "Not in a git repository")]
   ∧ state_of s = Done ∧ fault s = None)
  ∧ ∀ out, rev_parse env = Completed out →
      (∀ e, status_porcelain env (Some (strip out)) = CalledProcessError e →
         ui (mach s) = [notice (py "Error running git: " ++ e);
                        notice (py "No changed files")]
         ∧ state_of s = Done ∧ fault s = None)
      ∧ (status_porcelain env (Some (strip out)) = FileNotFoundError →
         ui (mach s) = [notice (py "Git not found in PATH");
                        notice (py "No changed files")]
         ∧ state_of s = Done ∧ fault s = None)
      ∧ (∀ stdout,
           status_porcelain env (Some (strip out)) = Completed stdout →
           fault s = None
           ∧ ((∃ line, line ∈ split_lines (strip stdout)
                       ∧ (3 ≤ length line)%nat) →
              ui (mach s) = [menu_panel (classified env)]
              ∧ state_of s = FilterSelect)
           ∧ ((∀ line, line ∈ split_lines (strip stdout) →
                       (length line < 3)%nat) →
              ui (mach s) = [notice (py "No changed files")]
              ∧ state_of s = Done)).
Proof.
  cbn zeta. rewrite start_eq. unfold state_of. cbn [mach ui pending fault].
  split; [|intros out Hrev; split_and!].
  - unfold start_trace. by intros [[e ->]| ->].
  - intros e Hst. unfold start_trace. by rewrite Hrev, Hst.
  - intros Hst. unfold start_trace. by rewrite Hrev, Hst.
  - intros stdout Hst. split; [done|].
    assert (lines_of env = split_lines (strip stdout)) as Hl.
    { unfold lines_of. by rewrite Hrev, Hst. }
    unfold start_trace. rewrite Hrev, Hst, Hl. split.
    + intros (line & Hin & Hlen).
      rewrite bool_decide_eq_false_2; [done|].
      rewrite records_of_nil. intros H. specialize (H line Hin). lia.
    + intros H. rewrite bool_decide_eq_true_2; [done|].
      by apply records_of_nil.
Qed.

(** X5: whenever the filter menu is open, "All Changes" (index 0) is not an
    empty category: choosing it opens the file panel with the deduplicated
    list of all paths, which is not empty. *)
Theorem all_changes_never_empty (env : environment) (answers : list Z) :
  let s := play env answers in
  state_of s = FilterSelect →
  state_of (deliver s 0) = FileSelect
  ∧ shown_names (deliver s 0) = presented filter_all (classified env)
  ∧ shown_names (deliver s 0) ≠ []
  ∧ fault (deliver s 0) = None.
Proof.
  cbn zeta. intros Hp%state_of_filter.
  assert (presented filter_all (classified env) ≠ []) as Hne.
  { intros H%presented_all_nil. cbn [all_files classified] in H.
    apply list_sort_nil_inv in H.
    destruct (play_open env answers) as [Hr _]; [congruence|done]. }
  rewrite deliver_filter by done. change (0 =? -1) with false.
  rewrite (py_index_nonneg filter_types 0 filter_all) by done.
  cbn zeta. set (c := set_selected_filter _ _).
  assert ((files_to_show c).1 = presented filter_all (classified env)) as Hc.
  { rewrite <- (play_presented env answers). done. }
  rewrite state_of_file. cbn [pending fault].
  rewrite panel_after_file_panel, Hc, bool_decide_eq_false_2 by done.
  unfold shown_names. cbn [mach ui]. rewrite last_snoc. unfold file_panel.
  by rewrite Hc, bool_decide_eq_false_2.
Qed.

(** X6: choosing a category that has no files (only "Staged Only" or
    "Unstaged Only" can be empty) shows one notice, "No staged only" or
    "No unstaged only", opens no file panel and ends the session without
    raising. *)
Theorem empty_category_notice
    (env : environment) (answers : list Z) (index : Z) (k : filter_type) :
  let s := play env answers in
  state_of s = FilterSelect →
  0 ≤ index →
  filter_types !! Z.to_nat index = Some k →
  presented k (classified env) = [] →
  ui (mach (deliver s index)) = ui (mach s) ++ [empty_notice k]
  ∧ state_of (deliver s index) = Done
  ∧ fault (deliver s index) = None
  ∧ k ≠ filter_all.
Proof.
  cbn zeta. intros Hp%state_of_filter H0 Hk Hempty.
  assert (k ≠ filter_all) as Hk'.
  { intros ->. apply presented_all_nil in Hempty.
    cbn [all_files classified] in Hempty. apply list_sort_nil_inv in Hempty.
    destruct (play_open env answers) as [Hr _]; [congruence|done]. }
  rewrite deliver_filter by done.
  destruct (Z.eqb_spec index (-1)); [lia|].
  rewrite (py_index_nonneg _ _ _ H0 Hk). cbn zeta.
  set (c := set_selected_filter _ _).
  assert ((files_to_show c).1 = []) as Hc.
  { rewrite <- Hempty, <- (play_presented env answers).
    unfold c, presented. by destruct k. }
  rewrite state_of_done. cbn [mach ui pending fault].
  rewrite panel_after_file_panel. unfold file_panel.
  rewrite Hc, bool_decide_eq_true_2 by done.
  split_and!; try done. f_equal. f_equal.
  unfold c, files_to_show; cbn [selected_filter set_selected_filter].
  by destruct k.
Qed.

(** X7: the three counts in the labels of the filter menu are the lengths
    of the three lists the file panel shows: the number of distinct paths
    for "All Changes", and the lengths of [staged_files] and
    [unstaged_files]. *)
Theorem menu_counts_match_lists (c : command) :
  filter_menu c =
  [ [py "All Changes (" ++ str_of_nat (length (presented filter_all c))
       ++ py " files)";
     py "Show all staged and unstaged files"];
    [py "Staged Only (" ++ str_of_nat (length (presented filter_staged c))
       ++ py " files)";
     py "Show only files in the staging area"];
    [py "Unstaged Only (" ++ str_of_nat (length (presented filter_unstaged c))
       ++ py " files)";
     py "Show only unstaged changes and untracked files"] ].
Proof.
  unfold filter_menu, presented, files_to_show.
  cbn [selected_filter set_selected_filter fst all_files staged_files
       unstaged_files].
  by rewrite size_list_to_set_unseen.
Qed.

(** ** Indices outside the panel *)

Lemma py_index_None {A} (l : list A) (index : Z) :
  index < - Z.of_nat (length l) ∨ Z.of_nat (length l) ≤ index →
  py_index l index = None.
Proof.
  intros H. unfold py_index.
  destruct (Z.leb_spec 0 index), (Z.ltb_spec index (Z.of_nat (length l)));
    cbn [andb]; try lia;
    destruct (Z.leb_spec (- Z.of_nat (length l)) index), (Z.ltb_spec index 0);
    cbn [andb]; try lia; done.
Qed.

Lemma py_index_negative {A} (l : list A) (index : Z) :
  - Z.of_nat (length l) ≤ index < 0 →
  py_index l index = py_index l (index + Z.of_nat (length l)).
Proof.
  intros H. unfold py_index.
  destruct (Z.leb_spec 0 index); [lia|]. cbn [andb].
  destruct (Z.leb_spec (- Z.of_nat (length l)) index); [|lia].
  destruct (Z.ltb_spec index 0); [|lia]. cbn [andb].
  destruct (Z.leb_spec 0 (index + Z.of_nat (length l))); [|lia].
  destruct (Z.ltb_spec (index + Z.of_nat (length l)) (Z.of_nat (length l)));
    [|lia].
  cbn [andb]. f_equal. lia.
Qed.

(** X8: an index the filter menu does not have.  Below -3 or above 2,
    [filter_types[index]] raises IndexError and nothing is shown; -3 and -2
    are taken by Python's negative indexing as 0 ("all") and 1
    ("staged"). *)
Theorem filter_index_bounds (s : session) (index : Z) :
  state_of s = FilterSelect →
  (index < -3 ∨ 2 < index →
   deliver s index = Session (mach s) None (Some IndexError))
  ∧ (index = -3 ∨ index = -2 → deliver s index = deliver s (index + 3)).
Proof.
  intros Hp%state_of_filter. split; intros H.
  - rewrite deliver_filter by done.
    destruct (Z.eqb_spec index (-1)); [lia|].
    rewrite py_index_None; [done|].
    change (Z.of_nat (length filter_types)) with 3. lia.
  - rewrite !deliver_filter by done.
    destruct (Z.eqb_spec index (-1)); [lia|].
    destruct (Z.eqb_spec (index + 3) (-1)); [lia|].
    rewrite (py_index_negative filter_types index); [done|].
    change (Z.of_nat (length filter_types)) with 3. lia.
Qed.

(** The file panel is never opened with an empty list. *)
Lemma play_file_nonempty (env : environment) (answers : list Z) :
  pending (play env answers) = Some cb_on_file_selected →
  files_to_open (self (mach (play env answers))) ≠ [].
Proof.
  induction answers as [|a answers IH] using rev_ind.
  - unfold play; cbn [foldl]. rewrite pending_start. by case_bool_decide.
  - rewrite play_snoc.
    destruct (pending (play env answers)) as [[]|] eqn:Hp.
    + rewrite deliver_filter by done. destruct (a =? -1); [done|].
      destruct (py_index filter_types a) as [k|]; [|done].
      cbn zeta. cbn [pending mach self]. rewrite panel_after_file_panel.
      case_bool_decide as Hf; [done|]. by rewrite <- files_to_show_open.
    + rewrite deliver_file by done. destruct (a =? -1); [done|].
      destruct (py_index _ a); [|done]. by destruct (git_root _).
    + rewrite deliver_done by done. congruence.
Qed.

(** X9: an index the file panel does not have.  With [n] files shown, an
    index below [-n] or from [n] on raises IndexError and no file is opened;
    an index from [-n] to -2 opens the file counted from the end of the
    list. *)
Theorem file_index_bounds
    (env : environment) (answers : list Z) (index : Z) :
  let s := play env answers in
  let n := Z.of_nat (length (shown_names s)) in
  state_of s = FileSelect →
  (index < - n ∨ n ≤ index →
   deliver s index = Session (mach s) None (Some IndexError))
  ∧ (- n ≤ index < -1 → deliver s index = deliver s (index + n)).
Proof.
  cbn zeta. intros Hp%state_of_file.
  rewrite (shown_names_file _ (consistent_play env answers) Hp),
    files_to_show_open.
  pose proof (play_file_nonempty env answers Hp) as Hne.
  assert (0 < Z.of_nat
                (length (files_to_open (self (mach (play env answers))))))
    as Hpos.
  { destruct (files_to_open _); [done|]. cbn [length]. lia. }
  split; intros H.
  - rewrite deliver_file by done.
    destruct (Z.eqb_spec index (-1)); [lia|].
    by rewrite py_index_None.
  - rewrite !deliver_file by done.
    destruct (Z.eqb_spec index (-1)); [lia|].
    destruct (Z.eqb_spec
                (index + Z.of_nat
                   (length (files_to_open (self (mach (play env answers))))))
                (-1)); [lia|].
    rewrite (py_index_negative _ index); [done|lia].
Qed.

(** ** What a session opens *)

Lemma files_to_open_elem (env : environment) (answers : list Z) (p : str) :
  p ∈ files_to_open (self (mach (play env answers))) →
  ∃ r, r ∈ records_of (lines_of env) ∧ path_of r = p.
Proof.
  destruct (play_same_lists env answers) as (_ & Ha & Hs & Hu).
  unfold files_to_open. rewrite Ha, Hs, Hu. cbn [classified all_files
    staged_files unstaged_files].
  destruct (selected_filter _) as [[]|].
  - rewrite elem_of_unseen, elem_of_map_path.
    intros [(r & Hr & <-) _]. exists r. by rewrite elem_of_list_sort in Hr.
  - rewrite elem_of_list_sort, elem_of_staged_paths.
    intros (r & Hr & <- & _). by exists r.
  - rewrite elem_of_list_sort, elem_of_unstaged_paths.
    intros (r & Hr & <- & _). by exists r.
  - rewrite elem_of_list_sort, elem_of_unstaged_paths.
    intros (r & Hr & <- & _). by exists r.
Qed.

Lemma filter_open_file_nil (l : list effect) :
  (∀ e, e ∈ l → is_open_file e = false) → filter (λ e, is_open_file e) l = [].
Proof.
  induction l as [|e l IH]; [done|]. intros H.
  rewrite filter_cons_False.
  - apply IH. intros e' He'. apply H. by right.
  - rewrite (H e (list_elem_of_here _ _)). by intros [].
Qed.

Lemma filter_open_file_snoc (u : list effect) (e : effect) :
  filter (λ e, is_open_file e) u = [] → is_open_file e = false →
  filter (λ e, is_open_file e) (u ++ [e]) = [].
Proof.
  intros Hu He. rewrite filter_app, Hu, filter_cons_False; [done|].
  rewrite He. by intros [].
Qed.

Lemma file_panel_not_open (c : command) : is_open_file (file_panel c) = false.
Proof. unfold file_panel. by case_bool_decide. Qed.

Lemma play_opened_once (env : environment) (answers : list Z) :
  opened_once env (play env answers).
Proof.
  induction answers as [|a answers IH] using rev_ind.
  - left. apply filter_open_file_nil, (start_no_open_file env).
  - rewrite play_snoc.
    destruct (pending (play env answers)) as [[]|] eqn:Hp.
    + destruct IH as [IH|[? _]]; [|congruence]. left.
      rewrite deliver_filter by done. destruct (a =? -1); [done|].
      destruct (py_index filter_types a) as [k|]; [|done].
      cbn zeta. cbn [mach ui].
      apply filter_open_file_snoc; [done|apply file_panel_not_open].
    + destruct IH as [IH|[? _]]; [|congruence].
      rewrite deliver_file by done. destruct (a =? -1).
      { left. cbn [mach ui]. by apply filter_open_file_snoc. }
      destruct (py_index _ a) as [p|] eqn:Hidx; [|by left].
      rewrite play_git_root. unfold root_of.
      destruct (rev_parse env) as [out|e|] eqn:Hrev; try by left.
      right. split; [done|]. cbn [mach ui].
      assert (p ∈ files_to_open (self (mach (play env answers)))) as Hin.
      { unfold py_index in Hidx.
        repeat case_match; try done; by eapply list_elem_of_lookup_2. }
      apply files_to_open_elem in Hin as (r & Hr & <-).
      by exists (ui (mach (play env answers))), out, r.
    + by rewrite deliver_done.
Qed.

(** X10: a session opens at most one file.  If [open_file] occurs in the
    trace, it is the only one and the last effect, the session is over, and
    the path is [os.path.join] of the stripped repository root and the path
    of one of the records parsed from the status output. *)
Theorem at_most_one_file_opened
    (env : environment) (answers : list Z) (f : str) :
  let s := play env answers in
  open_file f ∈ ui (mach s) →
  filter (λ e, is_open_file e) (ui (mach s)) = [open_file f]
  ∧ last (ui (mach s)) = Some (open_file f)
  ∧ state_of s = Done
  ∧ ∃ out r,
      rev_parse env = Completed out
      ∧ r ∈ records_of (lines_of env)
      ∧ f = os_path_join (strip out) (path_of r).
Proof.
  cbn zeta. intros Hin.
  destruct (play_opened_once env answers)
    as [Hnone|(Hp & u & out & r & Hui & Hu & Hrev & Hr)].
  - exfalso.
    assert (open_file f ∈ filter (λ e, is_open_file e)
                             (ui (mach (play env answers)))) as H.
    { by apply list_elem_of_filter. }
    rewrite Hnone in H. by apply elem_of_nil in H.
  - rewrite Hui in Hin |- *.
    apply elem_of_app in Hin as [Hin|Hin%list_elem_of_singleton].
    + exfalso.
      assert (open_file f ∈ filter (λ e, is_open_file e) u) as H.
      { by apply list_elem_of_filter. }
      rewrite Hu in H. by apply elem_of_nil in H.
    + injection Hin as ->.
      rewrite filter_app, Hu, last_snoc, state_of_done.
      split_and!; try done. by exists out, r.
Qed.

(** X11: an answer the window can give (dismissal, or the index of an item
    of the open panel) never makes a callback raise. *)
Theorem valid_answer_never_raises
    (env : environment) (answers : list Z) (index : Z) :
  valid_answer (play env answers) index →
  fault (deliver (play env answers) index) = None.
Proof.
  intros [Hopen Hidx].
  destruct (play_open env answers Hopen) as (_ & out & stdout & Hrev & _).
  destruct (pending (play env answers)) as [[]|] eqn:Hp; [| |done].
  - rewrite deliver_filter by done.
    destruct (Z.eqb_spec index (-1)); [done|].
    destruct Hidx as [|(e & He & Hlt)]; [done|].
    rewrite (play_filter_last env answers Hp) in He. injection He as <-.
    change (Z.of_nat (items_count (menu_panel (classified env)))) with 3 in Hlt.
    assert (is_Some (filter_types !! Z.to_nat index)) as [k Hk].
    { apply lookup_lt_is_Some. cbn. lia. }
    by rewrite (py_index_nonneg _ _ _ (proj1 Hlt) Hk).
  - rewrite deliver_file by done.
    destruct (Z.eqb_spec index (-1)); [done|].
    destruct Hidx as [|(e & He & Hlt)]; [done|].
    destruct (consistent_play env answers Hp) as (k & ph & _ & Hlast).
    rewrite Hlast in He. injection He as <-.
    cbn [items_count] in Hlt. rewrite files_to_show_open in Hlt.
    assert (is_Some (files_to_open (self (mach (play env answers)))
                       !! Z.to_nat index)) as [p Hp'].
    { apply lookup_lt_is_Some. lia. }
    rewrite (py_index_nonneg _ _ _ (proj1 Hlt) Hp'), play_git_root.
    unfold root_of. by rewrite Hrev.
Qed.

(** X12: every filter menu a session shows, the first one and each one
    shown again after the file panel was dismissed, is the same panel, with
    the same counts. *)
Theorem filter_menu_never_changes
    (env : environment) (answers : list Z)
    (items : panel_items) (flags : N) (placeholder : str) :
  show_quick_panel items (Some cb_on_filter_selected) flags placeholder
    ∈ ui (mach (play env answers)) →
  show_quick_panel items (Some cb_on_filter_selected) flags placeholder
  = menu_panel (classified env).
Proof.
  induction answers as [|a answers IH] using rev_ind.
  - unfold play; cbn [foldl]. rewrite start_eq. cbn [mach ui].
    unfold start_trace.
    destruct (rev_parse env) as [out|e|];
      [destruct (status_porcelain env _) as [stdout|e|];
       [case_bool_decide|..]|..];
      intros He;
      repeat (apply elem_of_cons in He as [He|He]; [done|]);
      by apply elem_of_nil in He.
  - rewrite play_snoc.
    destruct (pending (play env answers)) as [[]|] eqn:Hp.
    + rewrite deliver_filter by done. destruct (a =? -1); [done|].
      destruct (py_index filter_types a) as [k|]; [|done].
      cbn zeta. cbn [mach ui].
      intros [He|He%list_elem_of_singleton]%elem_of_app; [by apply IH|].
      exfalso. revert He. unfold file_panel. by case_bool_decide.
    + rewrite deliver_file by done. destruct (a =? -1).
      * cbn [mach ui].
        intros [He|He%list_elem_of_singleton]%elem_of_app; [by apply IH|].
        by rewrite He, play_menu_panel.
      * destruct (py_index _ a); [|done].
        destruct (git_root _); [|done]. cbn [mach ui].
        intros [He|He%list_elem_of_singleton]%elem_of_app; [by apply IH|].
        done.
    + by rewrite deliver_done.
Qed.

(** X13: in every session, a path listed under "Staged Only" or under
    "Unstaged Only" is also listed under "All Changes". *)
Theorem categories_within_all
    (env : environment) (answers : list Z) (p : str) :
  let c := self (mach (play env answers)) in
  p ∈ presented filter_staged c ∨ p ∈ presented filter_unstaged c →
  p ∈ presented filter_all c.
Proof.
  cbn zeta. rewrite !play_presented.
  assert (∀ r, r ∈ records_of (lines_of env) →
               path_of r ∈ presented filter_all (classified env)) as Hall.
  { intros r Hr. unfold presented, files_to_show.
    cbn [selected_filter set_selected_filter fst all_files classified].
    rewrite elem_of_unseen, elem_of_map_path. split; [|set_solver].
    exists r. by rewrite elem_of_list_sort. }
  unfold presented at 1 2. unfold files_to_show.
  cbn [selected_filter set_selected_filter fst staged_files unstaged_files
       classified].
  rewrite !elem_of_list_sort, elem_of_staged_paths, elem_of_unstaged_paths.
  intros [(r & Hr & <- & _)|(r & Hr & <- & _)]; by apply Hall.
Qed.

(** ** Stripping and splitting *)

Lemma lstrip_tight (x : N) (t : str) :
  isspace x = false → lstrip (x :: t) = x :: t.
Proof. intros H. cbn [lstrip]. by rewrite H. Qed.

Lemma rstrip_snoc_space (s : str) (c : N) :
  isspace c = true → rstrip (s ++ [c]) = rstrip s.
Proof.
  intros H. unfold rstrip. rewrite rev_unit. cbn [lstrip]. by rewrite H.
Qed.

Lemma rstrip_snoc_tight (s : str) (x : N) :
  isspace x = false → rstrip (s ++ [x]) = s ++ [x].
Proof.
  intros H. unfold rstrip. rewrite rev_unit, lstrip_tight by done.
  cbn [rev]. by rewrite rev_involutive.
Qed.

Lemma strip_tight (s : str) : tight s → strip s = s.
Proof.
  intros [(x & t & -> & Hx) (t' & y & E & Hy)]. unfold strip.
  rewrite lstrip_tight by done. rewrite E. by apply rstrip_snoc_tight.
Qed.

Lemma strip_tight_newline (s : str) :
  tight s → strip (s ++ [Char.newline]) = s.
Proof.
  intros [(x & t & -> & Hx) (t' & y & E & Hy)]. unfold strip.
  change ((x :: t) ++ [Char.newline]) with (x :: (t ++ [Char.newline])).
  rewrite lstrip_tight by done.
  change (x :: (t ++ [Char.newline])) with ((x :: t) ++ [Char.newline]).
  rewrite rstrip_snoc_space by done. rewrite E. by apply rstrip_snoc_tight.
Qed.

Lemma length_lstrip (s : str) : (length (lstrip s) ≤ length s)%nat.
Proof.
  induction s as [|c s IH]; [done|]. cbn [lstrip].
  destruct (isspace c); cbn [length]; lia.
Qed.

Lemma lstrip_fixed (s : str) :
  lstrip s = s → s = [] ∨ ∃ x t, s = x :: t ∧ isspace x = false.
Proof.
  destruct s as [|c s]; [by left|]. cbn [lstrip].
  destruct (isspace c) eqn:E; [|right; eauto].
  intros H. pose proof (length_lstrip s) as Hl. rewrite H in Hl.
  cbn [length] in Hl. lia.
Qed.

Lemma length_rstrip (s : str) : (length (rstrip s) ≤ length s)%nat.
Proof.
  unfold rstrip. rewrite length_rev.
  pose proof (length_lstrip (rev s)) as H. by rewrite length_rev in H.
Qed.

(** A string [strip] leaves unchanged and that is not empty is tight. *)
Lemma strip_fixed_tight (s : str) : strip s = s → s ≠ [] → tight s.
Proof.
  intros Hs Hne.
  assert (lstrip s = s) as Hl.
  { pose proof (length_lstrip s) as H1.
    pose proof (length_rstrip (lstrip s)) as H2.
    unfold strip in Hs. rewrite Hs in H2.
    assert (length (lstrip s) = length s) as Hlen by lia.
    destruct s as [|c s]; [done|]. revert Hlen. cbn [lstrip].
    destruct (isspace c); [|done].
    pose proof (length_lstrip s). cbn [length]. lia. }
  assert (lstrip (rev s) = rev s) as Hr.
  { unfold strip in Hs. rewrite Hl in Hs. unfold rstrip in Hs.
    rewrite <- Hs at 2. by rewrite rev_involutive. }
  split.
  - by destruct (lstrip_fixed s Hl) as [|H].
  - destruct (lstrip_fixed _ Hr) as [H|(x & t & E & Hx)].
    + apply (f_equal (@rev N)) in H. rewrite rev_involutive in H. done.
    + exists (rev t), x. split; [|done].
      apply (f_equal (@rev N)) in E. by rewrite rev_involutive in E.
Qed.

Lemma split_lines_cons (c : N) (s : str) :
  split_lines (c :: s) =
  if (c =? Char.newline)%N then [] :: split_lines s
  else match split_lines s with
       | l :: ls => (c :: l) :: ls
       | [] => [[c]]
       end.
Proof. reflexivity. Qed.

Lemma split_lines_no_newline (l : str) : no_newline l → split_lines l = [l].
Proof.
  unfold no_newline. induction l as [|c l IH]; [done|].
  rewrite not_elem_of_cons. intros [Hc Hl]. rewrite split_lines_cons.
  destruct (N.eqb_spec c Char.newline); [congruence|]. by rewrite IH.
Qed.

Lemma split_lines_app (l rest : str) :
  no_newline l →
  split_lines (l ++ Char.newline :: rest) = l :: split_lines rest.
Proof.
  unfold no_newline. induction l as [|c l IH].
  - intros _. cbn [app]. by rewrite split_lines_cons, N.eqb_refl.
  - rewrite not_elem_of_cons. intros [Hc Hl].
    change ((c :: l) ++ Char.newline :: rest)
      with (c :: (l ++ Char.newline :: rest)).
    rewrite split_lines_cons.
    destruct (N.eqb_spec c Char.newline); [congruence|]. by rewrite IH.
Qed.

(** [split('\n')] undoes joining lines that contain no newline. *)
Lemma split_join_lines (lines : list str) :
  lines ≠ [] → Forall no_newline lines →
  split_lines (join_lines lines) = lines.
Proof.
  induction lines as [|l lines IH]; [done|]. intros _ Hall.
  apply Forall_cons in Hall as [Hl Hall].
  destruct lines as [|l' lines].
  - by apply split_lines_no_newline.
  - change (join_lines (l :: l' :: lines))
      with (l ++ Char.newline :: join_lines (l' :: lines)).
    rewrite split_lines_app by done. by rewrite IH.
Qed.

Lemma strip_cons_space (c : N) (s : str) :
  isspace c = true → strip (c :: s) = strip s.
Proof. intros H. unfold strip. cbn [lstrip]. by rewrite H. Qed.

Lemma join_lines_cons (l : str) (lines : list str) :
  lines ≠ [] →
  join_lines (l :: lines) = l ++ Char.newline :: join_lines lines.
Proof. by destruct lines. Qed.

Lemma join_lines_last (lines : list str) (t : str) (y : N) :
  last lines = Some (t ++ [y]) → ∃ t', join_lines lines = t' ++ [y].
Proof.
  induction lines as [|l lines IH]; [done|].
  destruct lines as [|l' lines].
  - intros [= ->]. by exists t.
  - intros H. destruct (IH H) as (t' & E).
    exists (l ++ Char.newline :: t').
    rewrite join_lines_cons by done. rewrite E.
    by rewrite <- app_assoc.
Qed.

(** The lines the loop sees when the output is lines without a newline in
    them, each ended by a newline, the first one starting and the last one
    ending with something that is not white space. *)
Lemma split_strip_lines (lines : list str) :
  Forall no_newline lines →
  (∃ x t, head lines = Some (x :: t) ∧ isspace x = false) →
  (∃ t y, last lines = Some (t ++ [y]) ∧ isspace y = false) →
  split_lines (strip (join_lines lines ++ [Char.newline])) = lines.
Proof.
  intros Hnl (x & t & Hhead & Hx) (t' & y & Hlast & Hy).
  assert (lines ≠ []) as Hne by by destruct lines.
  rewrite strip_tight_newline; [by apply split_join_lines|].
  split.
  - destruct lines as [|l lines]; [done|]. injection Hhead as ->.
    destruct lines as [|l' lines]; [by exists x, t|].
    rewrite join_lines_cons by done. by eexists x, _.
  - destruct (join_lines_last _ _ _ Hlast) as (t'' & E). by exists t'', y.
Qed.

Lemma porcelain_join (rs : list record) :
  rs ≠ [] →
  porcelain rs = join_lines (map porcelain_line rs) ++ [Char.newline].
Proof.
  induction rs as [|r rs IH]; [done|]. intros _.
  destruct rs as [|r' rs].
  { unfold porcelain. cbn [flat_map map join_lines]. by rewrite app_nil_r. }
  change (porcelain (r :: r' :: rs))
    with ((porcelain_line r ++ [Char.newline]) ++ porcelain (r' :: rs)).
  rewrite IH by done.
  change (map porcelain_line (r :: r' :: rs))
    with (porcelain_line r :: map porcelain_line (r' :: rs)).
  rewrite join_lines_cons by done.
  by rewrite <- !app_assoc.
Qed.

Lemma forallb_no_newline (s : str) :
  forallb (λ c, negb (c =? Char.newline)%N) s = true → no_newline s.
Proof.
  unfold no_newline. rewrite forallb_forall. intros H Hin.
  apply list_elem_of_In, H in Hin. by rewrite N.eqb_refl in Hin.
Qed.

Lemma plain_path_spec (p : str) :
  plain_path p = true →
  p ≠ [] ∧ no_newline p ∧ strip p = p ∧ unquote p = p ∧ tight p.
Proof.
  unfold plain_path. rewrite !andb_true_iff, !negb_true_iff.
  intros [[[Hne Hnl] Hs] Hq].
  apply bool_decide_eq_false in Hne. apply bool_decide_eq_true in Hs.
  split_and!; try done.
  - by apply forallb_no_newline.
  - unfold unquote. by rewrite Hq.
  - by apply strip_fixed_tight.
Qed.

Lemma plain_status_spec (st : str) :
  plain_status st = true → length st = 2%nat ∧ no_newline st.
Proof.
  unfold plain_status. rewrite andb_true_iff. intros [Hl Hnl].
  apply bool_decide_eq_true in Hl. split; [done|].
  by apply forallb_no_newline.
Qed.

Lemma parse_line_porcelain (r : record) :
  plain_record r = true → parse_line (porcelain_line r) = Some r.
Proof.
  unfold plain_record. rewrite andb_true_iff. intros [Hst Hp].
  apply plain_status_spec in Hst as [Hlen _].
  apply plain_path_spec in Hp as (_ & _ & Hs & Hq & _).
  destruct r as [p st]. unfold porcelain_line, status_of, path_of in *.
  cbn [fst snd] in *.
  destruct st as [|a [|b [|c st]]]; try done.
  unfold parse_line. cbn [app length Nat.ltb Nat.leb take drop].
  by rewrite drop_0, Hs, Hq.
Qed.

Lemma no_newline_porcelain_line (r : record) :
  plain_record r = true → no_newline (porcelain_line r).
Proof.
  unfold plain_record. rewrite andb_true_iff. intros [Hst Hp].
  apply plain_status_spec in Hst as [_ Hst].
  apply plain_path_spec in Hp as (_ & Hp & _).
  unfold no_newline, porcelain_line in *.
  rewrite elem_of_app, elem_of_cons. intros [?|[?|?]]; done.
Qed.

Lemma records_of_porcelain_lines (rs : list record) :
  Forall (λ r, plain_record r = true) rs →
  records_of (map porcelain_line rs) = rs.
Proof.
  unfold records_of. induction 1 as [|r rs Hr _ IH]; [done|].
  cbn [map omap list_omap]. rewrite (parse_line_porcelain r Hr).
  fold (omap parse_line (map porcelain_line rs)). by rewrite IH.
Qed.

Lemma last_porcelain_line (rs : list record) :
  rs ≠ [] → Forall (λ r, plain_record r = true) rs →
  ∃ t y, last (map porcelain_line rs) = Some (t ++ [y]) ∧ isspace y = false.
Proof.
  intros Hne Hall.
  destruct (last rs) as [r|] eqn:Hlast;
    [|by apply last_None in Hlast].
  assert (plain_record r = true) as Hr.
  { rewrite Forall_forall in Hall. apply Hall.
    apply last_Some in Hlast as [l' ->]. set_solver. }
  unfold plain_record in Hr. apply andb_true_iff in Hr as [_ Hp].
  apply plain_path_spec in Hp as (_ & _ & _ & _ & _ & (t & y & E & Hy)).
  exists (status_of r ++ Char.space :: t), y. split; [|done].
  apply last_Some in Hlast as [l' ->].
  rewrite map_app. cbn [map]. rewrite last_snoc. f_equal.
  unfold porcelain_line. rewrite E. by rewrite <- app_assoc.
Qed.

(** X1: when the status output is well-formed porcelain (lines "XY path"
    ended by newlines, with paths git prints unquoted) and the first status
    does not start with a space, the loop reads back exactly the records, in
    order, and the three lists are the sorted paths, the sorted staged paths
    and the sorted unstaged paths. *)
Theorem porcelain_output_parsed
    (env : environment) (out : str) (rs : list record) :
  rev_parse env = Completed out →
  status_porcelain env (Some (strip out)) = Completed (porcelain rs) →
  Forall (λ r, plain_record r = true) rs →
  (∀ r, head rs = Some r → isspace (first_char (status_of r)) = false) →
  let c := self (mach (start env)) in
  records_of (lines_of env) = rs
  ∧ all_files c = list_sort path_of rs
  ∧ staged_files c = list_sort id (staged_paths rs)
  ∧ unstaged_files c = list_sort id (unstaged_paths rs).
Proof.
  intros Hrev Hst Hall Hfirst. cbn zeta.
  assert (records_of (lines_of env) = rs) as Hrs.
  { unfold lines_of. rewrite Hrev, Hst.
    destruct rs as [|r rs]; [done|].
    rewrite porcelain_join by done.
    rewrite split_strip_lines; [by apply records_of_porcelain_lines|..].
    - apply Forall_forall. intros l Hl.
      apply list_elem_of_In, in_map_iff in Hl as (r' & <- & Hr').
      apply no_newline_porcelain_line.
      rewrite Forall_forall in Hall. by apply Hall, list_elem_of_In.
    - specialize (Hfirst r eq_refl).
      apply Forall_cons in Hall as [Hr _].
      unfold plain_record in Hr. apply andb_true_iff in Hr as [Hs _].
      apply plain_status_spec in Hs as [Hlen _].
      destruct r as [p st]. cbn [status_of snd] in *.
      destruct st as [|a st]; [done|].
      by exists a, (st ++ Char.space :: p).
    - by apply last_porcelain_line. }
  rewrite start_eq. cbn [mach self]. unfold classified. by rewrite Hrs.
Qed.

Lemma tight_quoted (p : str) : tight (Char.dquote :: p ++ [Char.dquote]).
Proof.
  split.
  - by exists Char.dquote, (p ++ [Char.dquote]).
  - by exists (Char.dquote :: p), Char.dquote.
Qed.

(** X2: a path that arrives wrapped in double quotes loses exactly the two
    quotes: whatever stands between them, white space and backslash escapes
    included, becomes the path unchanged. *)
Theorem quoted_path_kept_verbatim (status : str) (sep : N) (p : str) :
  length status = 2%nat →
  parse_line (status ++ sep :: Char.dquote :: p ++ [Char.dquote])
  = Some (p, status).
Proof.
  intros Hlen. destruct status as [|a [|b [|c status]]]; try done.
  unfold parse_line. cbn [app length Nat.ltb Nat.leb take drop].
  rewrite (strip_tight _ (tight_quoted p)).
  unfold unquote, endswith_char.
  change (Char.dquote :: p ++ [Char.dquote])
    with ((Char.dquote :: p) ++ [Char.dquote]) at 2.
  rewrite rev_unit. cbn [startswith_char]. rewrite N.eqb_refl. cbn [andb].
  unfold slice_1_m1. cbn [tail]. by rewrite removelast_last.
Qed.

Lemma porcelain_cons_join (l : str) (rs : list record) :
  (l ++ [Char.newline]) ++ porcelain rs
  = join_lines (l :: map porcelain_line rs) ++ [Char.newline].
Proof.
  destruct rs as [|r rs].
  - unfold porcelain. cbn [flat_map map join_lines]. by rewrite app_nil_r.
  - rewrite porcelain_join by done.
    rewrite join_lines_cons by done. by rewrite <- !app_assoc.
Qed.

Lemma isspace_not_newline (x : N) : isspace x = false → x ≠ Char.newline.
Proof. by intros H ->. Qed.

Lemma isspace_not_space (x : N) : isspace x = false → x ≠ Char.space.
Proof. by intros H ->. Qed.

(** X3: [strip] is applied to the whole output before it is split, so when
    the first line is " x path" (nothing staged, [x] in the work tree) its
    leading space is lost and the line is read one character to the left:
    the status becomes "x " and the path loses its first character.  The
    record is then not counted as unstaged, and is counted as staged unless
    [x] is '?'; the other lines are read as they are. *)
Theorem leading_space_shifts_first_record
    (env : environment) (out : str) (x : N) (path : str) (rs : list record) :
  rev_parse env = Completed out →
  status_porcelain env (Some (strip out))
  = Completed (porcelain ((path, [Char.space; x]) :: rs)) →
  isspace x = false →
  plain_path path = true →
  Forall (λ r, plain_record r = true) rs →
  records_of (lines_of env)
  = (unquote (strip (tail path)), [x; Char.space]) :: rs
  ∧ is_unstaged [Char.space; x] = true
  ∧ is_staged [Char.space; x] = false
  ∧ is_unstaged [x; Char.space] = false
  ∧ is_staged [x; Char.space] = negb (x =? Char.question)%N.
Proof.
  intros Hrev Hst Hx Hpath Hall.
  pose proof (isspace_not_newline x Hx) as Hxn.
  pose proof (isspace_not_space x Hx) as Hxs.
  apply plain_path_spec in Hpath as (Hne & Hnl & _ & _ & _ & (t & y & E & Hy)).
  split.
  - unfold lines_of. rewrite Hrev, Hst.
    set (line := x :: Char.space :: path).
    assert (porcelain ((path, [Char.space; x]) :: rs)
            = Char.space :: ((line ++ [Char.newline]) ++ porcelain rs)) as ->
      by done.
    rewrite strip_cons_space by done. rewrite porcelain_cons_join.
    rewrite split_strip_lines.
    + unfold records_of. cbn [omap list_omap].
      fold (omap parse_line (map porcelain_line rs)).
      fold (records_of (map porcelain_line rs)).
      rewrite records_of_porcelain_lines by done.
      unfold line, parse_line. destruct path as [|c path]; [done|].
      cbn [length Nat.ltb Nat.leb take drop tail]. by rewrite drop_0.
    + constructor.
      * unfold no_newline, line. rewrite !not_elem_of_cons. done.
      * apply Forall_forall. intros l Hl.
        apply list_elem_of_In, in_map_iff in Hl as (r' & <- & Hr').
        apply no_newline_porcelain_line.
        rewrite Forall_forall in Hall. by apply Hall, list_elem_of_In.
    + by exists x, (Char.space :: path).
    + destruct rs as [|r rs].
      * exists (x :: Char.space :: t), y. unfold line. by rewrite E.
      * destruct (last_porcelain_line (r :: rs)) as (t' & y' & Hl & Hy');
          [done..|].
        exists t', y'. split; [|done]. by rewrite <- Hl.
  - unfold is_unstaged, is_staged, first_char, second_char. cbn [nth str_eqb].
    destruct (N.eqb_spec x Char.space); [done|].
    rewrite N.eqb_refl. cbn. by rewrite andb_false_r.
Qed.

(** ** The repository root *)

Lemma lstrip_head (s : str) :
  lstrip s = [] ∨ ∃ x t, lstrip s = x :: t ∧ isspace x = false.
Proof.
  induction s as [|c s IH]; [by left|]. cbn [lstrip].
  destruct (isspace c) eqn:E; [done|]. right. by exists c, s.
Qed.

Lemma lstrip_app_tight (w v : str) (a : N) :
  isspace a = false → lstrip (w ++ a :: v) = lstrip w ++ a :: v.
Proof.
  intros Ha. induction w as [|c w IH].
  - cbn [app lstrip]. by rewrite Ha.
  - cbn [app lstrip]. by destruct (isspace c).
Qed.

Lemma strip_nil_or_tight (s : str) : strip s = [] ∨ tight (strip s).
Proof.
  unfold strip. destruct (lstrip_head s) as [->|(a & u & -> & Ha)];
    [by left|].
  right. unfold rstrip. cbn [rev]. rewrite lstrip_app_tight by done.
  rewrite rev_unit. split; [by eexists a, _|].
  destruct (lstrip_head (rev u)) as [->|(y & t & -> & Hy)].
  - by exists [], a.
  - cbn [app rev]. by exists (a :: rev t), y.
Qed.

Lemma strip_idempotent (s : str) : strip (strip s) = strip s.
Proof.
  destruct (strip_nil_or_tight s) as [->|H]; [done|]. by apply strip_tight.
Qed.

(** X14: in every session the stored repository root is the output of
    [git rev-parse --show-toplevel] without white space at either end (so
    without the newline git prints): it is empty or starts and ends with a
    character that is not white space, and stripping it again changes
    nothing. *)
Theorem git_root_trimmed
    (env : environment) (answers : list Z) (root : str) :
  git_root (self (mach (play env answers))) = Some root →
  (∃ out, rev_parse env = Completed out ∧ root = strip out)
  ∧ strip root = root
  ∧ (root = [] ∨ tight root).
Proof.
  rewrite play_git_root. unfold root_of.
  destruct (rev_parse env) as [out|e|]; try done.
  intros [= <-]. split; [by exists out|].
  split; [apply strip_idempotent|apply strip_nil_or_tight].
Qed.

(** ** The working directory *)

Lemma upto_last_cons_sep (sep : N) (p : str) :
  upto_last sep (sep :: p) = sep :: upto_last sep p.
Proof.
  cbn [upto_last]. rewrite N.eqb_refl. by destruct (upto_last sep p).
Qed.

Lemma upto_last_app (sep : N) (a b : str) :
  upto_last sep (a ++ sep :: b) = a ++ sep :: upto_last sep b.
Proof.
  induction a as [|x a IH]; [apply upto_last_cons_sep|].
  cbn [app upto_last]. rewrite IH. by destruct a.
Qed.

Lemma upto_last_prefix (sep : N) (p : str) : upto_last sep p `prefix_of` p.
Proof.
  induction p as [|x p IH]; [done|]. cbn [upto_last].
  destruct (upto_last sep p) as [|y head].
  - destruct (x =? sep)%N; [|apply prefix_nil].
    exists p. done.
  - by apply prefix_cons.
Qed.

Lemma lstrip_char_split (c : N) (s : str) :
  ∃ k, s = k ++ lstrip_char c s.
Proof.
  induction s as [|x s (k & IH)]; [by exists []|]. cbn [lstrip_char].
  destruct (x =? c)%N; [|by exists []].
  exists (x :: k). cbn [app]. by rewrite <- IH.
Qed.

Lemma rstrip_char_prefix (c : N) (s : str) : rstrip_char c s `prefix_of` s.
Proof.
  unfold rstrip_char. destruct (lstrip_char_split c (rev s)) as (k & E).
  exists (rev k). apply (f_equal (@rev N)) in E.
  by rewrite rev_involutive, rev_app_distr in E.
Qed.

Lemma lstrip_char_head (c : N) (s : str) :
  startswith_char c (lstrip_char c s) = false.
Proof.
  induction s as [|x s IH]; [done|]. cbn [lstrip_char].
  destruct (x =? c)%N eqn:E; [done|]. cbn [startswith_char]. done.
Qed.

Lemma rstrip_char_end (c : N) (s : str) :
  endswith_char c (rstrip_char c s) = false.
Proof.
  unfold endswith_char, rstrip_char. rewrite rev_involutive.
  apply lstrip_char_head.
Qed.

Lemma lstrip_char_nil (c : N) (s : str) :
  lstrip_char c s = [] → all_char c s = true.
Proof.
  induction s as [|x s IH]; [done|]. cbn [lstrip_char all_char forallb].
  destruct (x =? c)%N; [|done]. intros H. by apply IH.
Qed.

Lemma all_char_rev (c : N) (s : str) : all_char c (rev s) = all_char c s.
Proof.
  unfold all_char. apply eq_true_iff_eq. rewrite !forallb_forall.
  split; intros H x Hx; apply H.
  - by apply in_rev in Hx.
  - by apply in_rev.
Qed.

Lemma rstrip_char_nil (c : N) (s : str) :
  rstrip_char c s = [] → all_char c s = true.
Proof.
  unfold rstrip_char. intros H. apply (f_equal (@rev N)) in H.
  rewrite rev_involutive in H. cbn [rev] in H.
  apply lstrip_char_nil in H. by rewrite all_char_rev in H.
Qed.

Lemma lstrip_char_app (c : N) (x y : str) :
  y ≠ [] → startswith_char c y = false →
  lstrip_char c (x ++ y) = lstrip_char c x ++ y.
Proof.
  intros Hne Hy. induction x as [|a x IH].
  - cbn [app lstrip_char]. destruct y as [|b y]; [done|].
    cbn [lstrip_char]. cbn [startswith_char] in Hy. by rewrite Hy.
  - cbn [app lstrip_char]. by destruct (a =? c)%N.
Qed.

Lemma rstrip_char_app (c : N) (a b : str) :
  a ≠ [] → endswith_char c a = false →
  rstrip_char c (a ++ b) = a ++ rstrip_char c b.
Proof.
  intros Hne Ha. unfold rstrip_char.
  rewrite rev_app_distr, lstrip_char_app, rev_app_distr, rev_involutive;
    [done| |done].
  intros H. apply (f_equal (@rev N)) in H. by rewrite rev_involutive in H.
Qed.

Lemma all_char_end (c : N) (a b : str) :
  a ≠ [] → endswith_char c a = false → all_char c (a ++ b) = false.
Proof.
  intros Hne Ha. unfold endswith_char in Ha.
  destruct (rev a) as [|z w] eqn:E.
  { apply (f_equal (@rev N)) in E. by rewrite rev_involutive in E. }
  cbn [startswith_char] in Ha.
  apply not_true_is_false. unfold all_char. rewrite forallb_forall.
  intros H. specialize (H z). rewrite Ha in H.
  assert (false = true); [|done]. apply H, in_or_app. left.
  apply in_rev. rewrite E. by left.
Qed.

(** X15: when the active view shows a file with an absolute name, the
    directory [git rev-parse] is run in is a prefix of that name, is not
    empty, is absolute, and does not end in a slash unless it consists of
    slashes only; the window's folders and the home directory play no
    part. *)
Theorem working_directory_of_absolute_file
    (name : str) (fs : list str) (h : str) :
  startswith_char Char.slash name = true →
  let d :=
    _get_working_directory (Window (Some (View (Some name))) fs h) in
  d = os_path_dirname name
  ∧ d ≠ []
  ∧ startswith_char Char.slash d = true
  ∧ d `prefix_of` name
  ∧ (endswith_char Char.slash d = true → all_char Char.slash d = true).
Proof.
  intros Habs. destruct name as [|x q]; [done|].
  cbn [startswith_char] in Habs. apply N.eqb_eq in Habs as ->.
  cbn zeta. unfold _get_working_directory.
  cbn [active_view file_name]. rewrite bool_decide_eq_false_2 by done.
  split; [done|].
  pose proof (upto_last_prefix Char.slash (Char.slash :: q)) as Hpre.
  unfold os_path_dirname. rewrite upto_last_cons_sep in *.
  set (head := Char.slash :: upto_last Char.slash q) in *.
  rewrite bool_decide_eq_false_2 by done. cbn [negb andb].
  destruct (all_char Char.slash head) eqn:Hall; cbn [negb].
  - by split_and!.
  - pose proof (rstrip_char_prefix Char.slash head) as [k Hk].
    destruct (rstrip_char Char.slash head) as [|y d] eqn:Hd.
    { apply rstrip_char_nil in Hd. congruence. }
    assert (y = Char.slash) as -> by (unfold head in Hk; by injection Hk).
    split_and!; try done.
    + etrans; [|exact Hpre]. by exists k.
    + rewrite <- Hd, rstrip_char_end. done.
Qed.

(** X16: the file a session opens, [os.path.join(root, path)] with a
    relative path and a root that is not empty and does not end in a slash,
    leads back into the repository: when that file is the active view, the
    working directory of the next invocation starts with the root. *)
Theorem working_directory_of_opened_file
    (root path : str) (fs : list str) (h : str) :
  root ≠ [] →
  endswith_char Char.slash root = false →
  startswith_char Char.slash path = false →
  root `prefix_of`
    _get_working_directory
      (Window (Some (View (Some (os_path_join root path)))) fs h).
Proof.
  intros Hne Hend Hrel.
  rewrite os_path_join_relative by done.
  unfold _get_working_directory. cbn [active_view file_name].
  rewrite bool_decide_eq_false_2 by by destruct root.
  unfold os_path_dirname. rewrite upto_last_app.
  rewrite bool_decide_eq_false_2 by by destruct root.
  rewrite all_char_end by done. cbn [negb andb].
  rewrite rstrip_char_app by done. by eexists.
Qed.

(** X17: the callbacks never change what [run] collected: after any
    answers the repository root and the three lists are those the
    invocation left, only the selected filter changes. *)
Theorem lists_fixed_after_run (env : environment) (answers : list Z) :
  let c0 := self (mach (start env)) in
  let c := self (mach (play env answers)) in
  git_root c = git_root c0
  ∧ all_files c = all_files c0
  ∧ staged_files c = staged_files c0
  ∧ unstaged_files c = unstaged_files c0
  ∧ current_level c = current_level c0.
Proof.
  cbn zeta.
  destruct (play_same_lists env answers) as (-> & -> & -> & ->).
  rewrite start_eq. cbn [mach self]. split_and!; try done.
  induction answers as [|a answers IH] using rev_ind.
  - unfold play; cbn [foldl]. by rewrite start_eq.
  - rewrite play_snoc, <- IH.
    destruct (pending (play env answers)) as [[]|] eqn:Hp.
    + rewrite deliver_filter by done. destruct (a =? -1); [done|].
      by destruct (py_index filter_types a).
    + rewrite deliver_file by done. destruct (a =? -1); [done|].
      destruct (py_index _ a); [|done]. by destruct (git_root _).
    + by rewrite deliver_done.
Qed.

(** X18: whenever a panel is open, whatever index it reports (also one
    the panel does not have), the callback returns or raises IndexError:
    [os.path.join] is never reached with [git_root] unset, so no TypeError
    leaves a callback. *)
Theorem callbacks_raise_only_index_error
    (env : environment) (answers : list Z) (index : Z) :
  pending (play env answers) ≠ None →
  fault (deliver (play env answers) index) = None
  ∨ fault (deliver (play env answers) index) = Some IndexError.
Proof.
  intros Hopen.
  destruct (play_open env answers Hopen) as (_ & out & stdout & Hrev & _).
  destruct (pending (play env answers)) as [[]|] eqn:Hp; [| |done].
  - rewrite deliver_filter by done. destruct (index =? -1); [by left|].
    destruct (py_index filter_types index); [by left|by right].
  - rewrite deliver_file by done. destruct (index =? -1); [by left|].
    destruct (py_index _ index); [|by right].
    rewrite play_git_root. unfold root_of. rewrite Hrev. by left.
Qed.

(** ** The further properties at sample invocations *)

Lemma porcelain_output_parsed_witness :
  porcelain Cases.records = Sample.status_stdout
  ∧ all_files (self (mach (start Sample.env)))
    = list_sort path_of Cases.records.
Proof.
  split; [reflexivity|].
  assert (Forall (λ r, plain_record r = true) Cases.records) as Hall.
  { unfold Cases.records. repeat (constructor; [reflexivity|]). constructor. }
  assert (∀ r, head Cases.records = Some r →
               isspace (first_char (status_of r)) = false) as Hfirst.
  { intros r [= <-]. reflexivity. }
  exact (proj1 (proj2 (porcelain_output_parsed Sample.env Sample.root_stdout
                         Cases.records eq_refl eq_refl Hall Hfirst))).
Defined.

Lemma quoted_path_kept_verbatim_witness :
  length (py "A ") = 2%nat
  ∧ parse_line (py "A  " ++ Char.dquote :: py "my file.txt" ++ [Char.dquote])
    = Some (py "my file.txt", py "A ").
Proof.
  split; [reflexivity|].
  exact (quoted_path_kept_verbatim (py "A ") Char.space (py "my file.txt")
           eq_refl).
Defined.

Lemma leading_space_shifts_first_record_witness :
  isspace 77%N = false
  ∧ plain_path (py "file_b.txt") = true
  ∧ records_of (lines_of Sample.modified_first)
    = [(py "ile_b.txt", py "M "); (py "file_c.txt", py "??")].
Proof.
  split; [reflexivity|]. split; [reflexivity|].
  assert (Forall (λ r, plain_record r = true) [(py "file_c.txt", py "??")])
    as Hall by (repeat (constructor; [reflexivity|]); constructor).
  exact (proj1 (leading_space_shifts_first_record Sample.modified_first
                  Sample.root_stdout 77%N (py "file_b.txt")
                  [(py "file_c.txt", py "??")]
                  eq_refl eq_refl eq_refl eq_refl Hall)).
Defined.

Lemma all_changes_never_empty_witness :
  state_of (play Sample.env [1; -1]) = FilterSelect
  ∧ state_of (deliver (play Sample.env [1; -1]) 0) = FileSelect.
Proof.
  assert (state_of (play Sample.env [1; -1]) = FilterSelect) as H
    by (vm_compute; reflexivity).
  split; [exact H|].
  exact (proj1 (all_changes_never_empty Sample.env [1; -1] H)).
Defined.

Lemma empty_category_notice_witness :
  state_of (play Cases.untracked_only []) = FilterSelect
  ∧ presented filter_staged (classified Cases.untracked_only) = []
  ∧ ui (mach (deliver (play Cases.untracked_only []) 1))
    = ui (mach (play Cases.untracked_only []))
      ++ [notice (py "No staged only")].
Proof.
  assert (state_of (play Cases.untracked_only []) = FilterSelect) as Hs
    by (vm_compute; reflexivity).
  assert (presented filter_staged (classified Cases.untracked_only) = [])
    as He by (vm_compute; reflexivity).
  split; [exact Hs|]. split; [exact He|].
  assert (0 ≤ 1) as H01 by lia.
  exact (proj1 (empty_category_notice Cases.untracked_only [] 1 filter_staged
                  Hs H01 eq_refl He)).
Defined.

Lemma filter_index_bounds_witness :
  state_of (start Sample.env) = FilterSelect
  ∧ deliver (start Sample.env) 3
    = Session (mach (start Sample.env)) None (Some IndexError)
  ∧ deliver (start Sample.env) (-2) = deliver (start Sample.env) (-2 + 3).
Proof.
  assert (state_of (start Sample.env) = FilterSelect) as Hs
    by (vm_compute; reflexivity).
  split; [exact Hs|]. split.
  - apply (proj1 (filter_index_bounds (start Sample.env) 3 Hs)). right. lia.
  - apply (proj2 (filter_index_bounds (start Sample.env) (-2) Hs)).
    right. reflexivity.
Defined.

Lemma file_index_bounds_witness :
  state_of (play Sample.env [1]) = FileSelect
  ∧ length (shown_names (play Sample.env [1])) = 3%nat
  ∧ fault (deliver (play Sample.env [1]) 3) = Some IndexError.
Proof.
  assert (state_of (play Sample.env [1]) = FileSelect) as Hs
    by (vm_compute; reflexivity).
  assert (length (shown_names (play Sample.env [1])) = 3%nat) as Hn
    by (vm_compute; reflexivity).
  split; [exact Hs|]. split; [exact Hn|].
  rewrite (proj1 (file_index_bounds Sample.env [1] 3 Hs)); [reflexivity|].
  right. rewrite Hn. lia.
Defined.

Lemma at_most_one_file_opened_witness :
  ui (mach (play Sample.env [1; 0; 0])) !! 2%nat
  = Some (open_file (py "/home/me/repo/file_a.txt"))
  ∧ state_of (play Sample.env [1; 0; 0]) = Done.
Proof.
  assert (ui (mach (play Sample.env [1; 0; 0])) !! 2%nat
          = Some (open_file (py "/home/me/repo/file_a.txt"))) as Hl
    by (vm_compute; reflexivity).
  split; [exact Hl|].
  exact (proj1 (proj2 (proj2
    (at_most_one_file_opened Sample.env [1; 0; 0]
       (py "/home/me/repo/file_a.txt") (list_elem_of_lookup_2 _ _ _ Hl))))).
Defined.

Lemma valid_answer_never_raises_witness :
  valid_answer (play Sample.env [2]) 2
  ∧ fault (deliver (play Sample.env [2]) 2) = None.
Proof.
  assert (valid_answer (play Sample.env [2]) 2) as Hv.
  { split.
    - vm_compute. discriminate.
    - right. eexists. split; [vm_compute; reflexivity|].
      vm_compute. split; [discriminate|reflexivity]. }
  split; [exact Hv|].
  exact (valid_answer_never_raises Sample.env [2] 2 Hv).
Defined.

Lemma filter_menu_never_changes_witness :
  ui (mach (play Sample.env [0; -1])) !! 2%nat
  = Some (menu_panel (classified Sample.env))
  ∧ ui (mach (play Sample.env [0; -1])) !! 0%nat
    = ui (mach (play Sample.env [0; -1])) !! 2%nat.
Proof.
  assert (ui (mach (play Sample.env [0; -1])) !! 2%nat
          = Some (menu_panel (classified Sample.env))) as H2
    by (vm_compute; reflexivity).
  split; [exact H2|].
  assert (∃ items, ui (mach (play Sample.env [0; -1])) !! 0%nat
                   = Some (show_quick_panel items (Some cb_on_filter_selected)
                             0%N (py "Changed Filter |"))) as [items H0]
    by (eexists; vm_compute; reflexivity).
  rewrite H2, H0. f_equal.
  exact (filter_menu_never_changes Sample.env [0; -1] items 0%N
           (py "Changed Filter |") (list_elem_of_lookup_2 _ _ _ H0)).
Defined.

Lemma categories_within_all_witness :
  presented filter_unstaged (self (mach (play Sample.env []))) !! 2%nat
  = Some (py "file_e.txt")
  ∧ py "file_e.txt" ∈ presented filter_all (self (mach (play Sample.env []))).
Proof.
  assert (presented filter_unstaged (self (mach (play Sample.env [])))
            !! 2%nat = Some (py "file_e.txt")) as H
    by (vm_compute; reflexivity).
  split; [exact H|].
  apply (categories_within_all Sample.env [] (py "file_e.txt")).
  right. exact (list_elem_of_lookup_2 _ _ _ H).
Defined.

Lemma git_root_trimmed_witness :
  git_root (self (mach (play Sample.env [0]))) = Some (py "/home/me/repo")
  ∧ strip (py "/home/me/repo") = py "/home/me/repo".
Proof.
  assert (git_root (self (mach (play Sample.env [0])))
          = Some (py "/home/me/repo")) as H by (vm_compute; reflexivity).
  split; [exact H|].
  exact (proj1 (proj2 (git_root_trimmed Sample.env [0] (py "/home/me/repo") H))).
Defined.

Lemma working_directory_of_absolute_file_witness :
  startswith_char Char.slash (py "/home/me/repo/src/main.py") = true
  ∧ _get_working_directory Cases.editing ≠ [].
Proof.
  split; [reflexivity|].
  exact (proj1 (proj2 (working_directory_of_absolute_file
                         (py "/home/me/repo/src/main.py")
                         [py "/home/me/other"] (py "/home/me") eq_refl))).
Defined.

Lemma working_directory_of_opened_file_witness :
  py "/home/me/repo" ≠ []
  ∧ endswith_char Char.slash (py "/home/me/repo") = false
  ∧ startswith_char Char.slash (py "src/main.py") = false
  ∧ py "/home/me/repo" `prefix_of`
      _get_working_directory
        (Window
           (Some (View (Some (os_path_join (py "/home/me/repo")
                                (py "src/main.py")))))
           [] (py "/home/me")).
Proof.
  assert (py "/home/me/repo" ≠ []) as Hne by discriminate.
  split; [exact Hne|]. split; [reflexivity|]. split; [reflexivity|].
  exact (working_directory_of_opened_file (py "/home/me/repo")
           (py "src/main.py") [] (py "/home/me") Hne eq_refl eq_refl).
Defined.

(** The working directory for the sample window is the directory of the
    file, not the folder of the window. *)
Example working_directory_example :
  _get_working_directory Cases.editing = py "/home/me/repo/src".
Proof. vm_compute. done. Qed.

(** ** A line of 3 characters in the output *)

Lemma lstrip_blank_app (a b : str) :
  has_ink a = false → lstrip (a ++ b) = lstrip b.
Proof.
  induction a as [|c a IH]; [done|]. cbn [has_ink existsb app lstrip].
  destruct (isspace c); [|done]. cbn [negb orb]. exact IH.
Qed.

Lemma lstrip_ink_app (a b : str) :
  has_ink a = true → lstrip (a ++ b) = lstrip a ++ b.
Proof.
  induction a as [|c a IH]; [done|]. cbn [has_ink existsb app lstrip].
  destruct (isspace c); [|done]. cbn [negb orb]. exact IH.
Qed.

Lemma has_ink_app (a b : str) : has_ink (a ++ b) = has_ink a || has_ink b.
Proof. apply existsb_app. Qed.

Lemma has_ink_rev (s : str) : has_ink (rev s) = has_ink s.
Proof.
  induction s as [|c s IH]; [done|]. cbn [rev].
  rewrite has_ink_app, IH. cbn [has_ink existsb].
  rewrite orb_false_r. apply orb_comm.
Qed.

Lemma rstrip_blank_app (a b : str) :
  has_ink b = false → rstrip (a ++ b) = rstrip a.
Proof.
  intros H. unfold rstrip. rewrite rev_app_distr, lstrip_blank_app; [done|].
  by rewrite has_ink_rev.
Qed.

Lemma rstrip_ink_app (a b : str) :
  has_ink b = true → rstrip (a ++ b) = a ++ rstrip b.
Proof.
  intros H. unfold rstrip.
  rewrite rev_app_distr, lstrip_ink_app by by rewrite has_ink_rev.
  by rewrite rev_app_distr, rev_involutive.
Qed.

Lemma split_lines_nonempty (s : str) : split_lines s ≠ [].
Proof.
  induction s as [|c s IH]; [done|]. rewrite split_lines_cons.
  destruct (c =? Char.newline)%N; [done|]. by destruct (split_lines s).
Qed.

(** [split('\n')] of two pieces put together with a newline. *)
Lemma split_lines_app_newline (a r : str) :
  split_lines (a ++ Char.newline :: r) = split_lines a ++ split_lines r.
Proof.
  induction a as [|c a IH].
  - cbn [app]. by rewrite split_lines_cons, N.eqb_refl.
  - cbn [app]. rewrite !split_lines_cons, IH.
    destruct (c =? Char.newline)%N; [done|].
    pose proof (split_lines_nonempty a). by destruct (split_lines a).
Qed.

(** A line of 3 characters that [strip] cannot reach is one of the lines the
    loop iterates over. *)
Lemma line_survives (pre line after : str) :
  length line = 3%nat →
  no_newline line →
  pre = [] ∨ (∃ b, pre = b ++ [Char.newline]) →
  has_ink pre = true ∨ isspace (nth 0 line 0%N) = false →
  has_ink after = true ∨ isspace (nth 2 line 0%N) = false →
  ∃ lines_before lines_after,
    split_lines (strip (pre ++ line ++ Char.newline :: after))
    = lines_before ++ line :: lines_after.
Proof.
  intros Hlen Hnl Hb Hl Hr.
  destruct line as [|x [|y [|z [|w line]]]]; try done.
  cbn [nth] in Hl, Hr. set (line := [x; y; z]) in *.
  assert (∃ pre', (pre' = [] ∨ ∃ b', pre' = b' ++ [Char.newline])
                  ∧ lstrip (pre ++ line ++ Char.newline :: after)
                    = pre' ++ line ++ Char.newline :: after)
    as (pre' & Hb' & Hls).
  { destruct (has_ink pre) eqn:Hink.
    - destruct Hb as [->|(b & ->)]; [done|].
      rewrite has_ink_app in Hink. cbn in Hink. rewrite orb_false_r in Hink.
      exists (lstrip b ++ [Char.newline]). split; [right; eauto|].
      rewrite <- !app_assoc. by rewrite lstrip_ink_app.
    - destruct Hl as [|Hx]; [done|]. exists []. split; [by left|].
      rewrite lstrip_blank_app by done. unfold line. cbn [app lstrip].
      by rewrite Hx. }
  unfold strip. rewrite Hls.
  destruct (has_ink after) eqn:Hafter.
  - assert (rstrip (pre' ++ line ++ Char.newline :: after)
            = pre' ++ line ++ Char.newline :: rstrip after) as ->.
    { assert (pre' ++ line ++ Char.newline :: after
              = (pre' ++ line ++ [Char.newline]) ++ after) as ->
        by by rewrite <- !app_assoc.
      rewrite rstrip_ink_app by done. by rewrite <- !app_assoc. }
    destruct Hb' as [->|(b' & ->)].
    + exists [], (split_lines (rstrip after)).
      cbn [app]. by rewrite (split_lines_app line).
    + exists (split_lines b'), (split_lines (rstrip after)).
      rewrite <- app_assoc. cbn [app].
      by rewrite split_lines_app_newline, (split_lines_app line).
  - destruct Hr as [|Hz]; [done|].
    assert (rstrip (pre' ++ line ++ Char.newline :: after) = pre' ++ line)
      as ->.
    { assert (pre' ++ line ++ Char.newline :: after
              = (pre' ++ line) ++ Char.newline :: after) as ->
        by by rewrite <- !app_assoc.
      rewrite rstrip_blank_app by done.
      assert (pre' ++ line = (pre' ++ [x; y]) ++ [z]) as ->
        by by rewrite <- !app_assoc.
      by apply rstrip_snoc_tight. }
    destruct Hb' as [->|(b' & ->)].
    + exists [], []. cbn [app]. by apply split_lines_no_newline.
    + exists (split_lines b'), [].
      rewrite <- app_assoc. cbn [app].
      by rewrite split_lines_app_newline, (split_lines_no_newline line).
Qed.

Lemma records_of_app (l1 l2 : list str) :
  records_of (l1 ++ l2) = records_of l1 ++ records_of l2.
Proof. unfold records_of. apply omap_app. Qed.

Lemma staged_paths_app (rs1 rs2 : list record) :
  staged_paths (rs1 ++ rs2) = staged_paths rs1 ++ staged_paths rs2.
Proof. unfold staged_paths. by rewrite filter_app, map_app. Qed.

Lemma unstaged_paths_app (rs1 rs2 : list record) :
  unstaged_paths (rs1 ++ rs2) = unstaged_paths rs1 ++ unstaged_paths rs2.
Proof. unfold unstaged_paths. by rewrite filter_app, map_app. Qed.

Lemma staged_paths_cons (r : record) (rs : list record) :
  staged_paths (r :: rs)
  = (if is_staged (status_of r) then [path_of r] else []) ++ staged_paths rs.
Proof.
  unfold staged_paths. rewrite filter_cons.
  destruct (is_staged (status_of r)); by case_decide.
Qed.

Lemma unstaged_paths_cons (r : record) (rs : list record) :
  unstaged_paths (r :: rs)
  = (if is_unstaged (status_of r) then [path_of r] else [])
    ++ unstaged_paths rs.
Proof.
  unfold unstaged_paths. rewrite filter_cons.
  destruct (is_unstaged (status_of r)); by case_decide.
Qed.

(** C9 (as amended): a line of exactly 3 characters in the status output
    that [stdout.strip()] cannot reach (something that is not white space
    stands before it, or its first character is not white space; and
    something that is not white space stands after it, or its third
    character is not white space) is not discarded by the invocation: among
    the records, in its place, is the record with the empty path and the
    line's first two characters as status; [all_files] is the sorted list of
    these records, and the empty path is in [staged_files] and
    [unstaged_files] by the same two tests as for any other record.  The
    filter menu is shown. *)
Theorem three_char_line_kept
    (env : environment) (out pre line after : str) :
  rev_parse env = Completed out →
  status_porcelain env (Some (strip out))
  = Completed (pre ++ line ++ Char.newline :: after) →
  length line = 3%nat →
  no_newline line →
  pre = [] ∨ (∃ b, pre = b ++ [Char.newline]) →
  has_ink pre = true ∨ isspace (nth 0 line 0%N) = false →
  has_ink after = true ∨ isspace (nth 2 line 0%N) = false →
  let c := self (mach (start env)) in
  let status := take 2 line in
  ∃ rs_before rs_after,
    records_of (lines_of env) = rs_before ++ ([], status) :: rs_after
    ∧ all_files c = list_sort path_of (rs_before ++ ([], status) :: rs_after)
    ∧ staged_files c
      = list_sort id (staged_paths rs_before
                      ++ (if is_staged status then [[]] else [])
                      ++ staged_paths rs_after)
    ∧ unstaged_files c
      = list_sort id (unstaged_paths rs_before
                      ++ (if is_unstaged status then [[]] else [])
                      ++ unstaged_paths rs_after)
    ∧ ([], status) ∈ all_files c
    ∧ [] ∈ presented filter_all c
    ∧ state_of (start env) = FilterSelect.
Proof.
  intros Hrev Hst Hlen Hnl Hb Hl Hr. cbn zeta.
  destruct (line_survives pre line after Hlen Hnl Hb Hl Hr) as (la & lb & Hsplit).
  assert (parse_line line = Some ([], take 2 line)) as Hparse.
  { by destruct line as [|a [|b [|c [|d line]]]]. }
  set (r := ([], take 2 line) : record) in *.
  assert (records_of (lines_of env) = records_of la ++ r :: records_of lb)
    as Hrs.
  { unfold lines_of. rewrite Hrev, Hst, Hsplit, records_of_app.
    f_equal. unfold records_of. cbn [omap list_omap]. by rewrite Hparse. }
  exists (records_of la), (records_of lb).
  assert (r ∈ all_files (self (mach (start env)))) as Hin.
  { rewrite start_eq. cbn [mach self classified all_files].
    rewrite elem_of_list_sort, Hrs. set_solver. }
  rewrite start_eq in Hin |- *. unfold state_of.
  cbn [mach self pending classified all_files staged_files unstaged_files]
    in Hin |- *.
  rewrite Hrs, staged_paths_app, unstaged_paths_app, staged_paths_cons,
    unstaged_paths_cons.
  split_and!; try done.
  - by rewrite <- Hrs.
  - unfold presented, files_to_show.
    cbn [selected_filter set_selected_filter fst all_files].
    rewrite elem_of_unseen, elem_of_map_path. split; [|set_solver].
    by exists r.
  - unfold start_trace. rewrite Hrev, Hst.
    rewrite bool_decide_eq_false_2; [done|]. rewrite Hrs. by destruct (records_of la).
Qed.

Lemma three_char_line_kept_witness :
  length (py "D  ") = 3%nat
  ∧ has_ink (py "M  a.txt" ++ [Char.newline]) = true
  ∧ has_ink (py "A  b.txt" ++ [Char.newline]) = true
  ∧ ([], py "D ") ∈ all_files (self (mach (start Edge.middle_line)))
  ∧ state_of (start Edge.middle_line) = FilterSelect.
Proof.
  split; [reflexivity|]. split; [reflexivity|]. split; [reflexivity|].
  assert (no_newline (py "D  ")) as Hnl.
  { unfold no_newline. vm_compute. intros H.
    repeat (apply elem_of_cons in H as [H|H]; [discriminate H|]).
    by apply elem_of_nil in H. }
  destruct (three_char_line_kept Edge.middle_line Sample.root_stdout
              (py "M  a.txt" ++ [Char.newline]) (py "D  ")
              (py "A  b.txt" ++ [Char.newline])
              eq_refl eq_refl eq_refl Hnl
              (or_intror (ex_intro _ (py "M  a.txt") eq_refl))
              (or_introl eq_refl) (or_introl eq_refl))
    as (rs1 & rs2 & _ & _ & _ & _ & Hin & _ & Hstate).
  split; [exact Hin | exact Hstate].
Defined.

(** A status line of 3 characters that ends the output is discarded:
    [strip] takes its separator, and what is left is shorter than 3.  Alone
    in the output it leaves no record and the notice "No changed files";
    after another line it leaves that line's record only. *)
Lemma three_char_last_line_dropped :
  length (py "D  ") = 3%nat
  ∧ lines_of Edge.only_line = [py "D"]
  ∧ all_files (self (mach (start Edge.only_line))) = []
  ∧ ui (mach (start Edge.only_line)) = [notice (py "No changed files")]
  ∧ lines_of Edge.last_line = [py "M  a.txt"; py "D"]
  ∧ all_files (self (mach (start Edge.last_line))) = [(py "a.txt", py "M ")].
Proof. vm_compute. by repeat split. Qed.

Lemma invocation_by_outcome_witness :
  ui (mach (start Sample.env)) = [menu_panel (classified Sample.env)]
  ∧ state_of (start Sample.env) = FilterSelect
  ∧ ui (mach (start Sample.clean)) = [notice (py "No changed files")].
Proof.
  assert (py "M  file_a.txt" ∈ split_lines (strip Sample.status_stdout))
    as Hin.
  { apply (list_elem_of_lookup_2 _ 0%nat). vm_compute. reflexivity. }
  assert (3 ≤ length (py "M  file_a.txt"))%nat as Hlen by (vm_compute; lia).
  destruct (proj2 (invocation_by_outcome Sample.env) Sample.root_stdout
              eq_refl) as (_ & _ & Hdone).
  destruct (Hdone Sample.status_stdout eq_refl) as (_ & Hmenu & _).
  destruct (Hmenu (ex_intro _ (py "M  file_a.txt") (conj Hin Hlen)))
    as [Hui Hstate].
  split; [exact Hui|]. split; [exact Hstate|].
  destruct (proj2 (invocation_by_outcome Sample.clean) Sample.root_stdout
              eq_refl) as (_ & _ & Hclean).
  destruct (Hclean [] eq_refl) as (_ & _ & Hnone).
  apply Hnone. intros line Hl.
  apply list_elem_of_singleton in Hl as ->. vm_compute. lia.
Defined.

Lemma callbacks_raise_only_index_error_witness :
  pending (play Sample.env [1]) ≠ None
  ∧ fault (deliver (play Sample.env [1]) 7) = Some IndexError.
Proof.
  assert (pending (play Sample.env [1]) ≠ None) as Hopen
    by (vm_compute; discriminate).
  split; [exact Hopen|].
  destruct (callbacks_raise_only_index_error Sample.env [1] 7 Hopen)
    as [H|H]; [|exact H].
  exfalso. revert H. vm_compute. discriminate.
Defined.
